(** * Detection Viewer: a shallow embedding of [App.js]

    The repository holds one React component, [App], in two variants: the
    REST variant (src/src/App.js) posts the image to [/predict] with [fetch],
    the client variant (the second source file) calls a hosted model through
    a client library.  This development embeds the component's state, its
    event handlers, the two halves of the asynchronous [detectObjects], the
    effect that releases preview URLs, and the part of the render function
    that draws overlays, labels and the JSON panel.

    JavaScript numbers are IEEE 754 binary64 values: they are embedded as
    Rocq's primitive floats, so [*], [-] and [/] below are the operations the
    browser performs. *)

From Stdlib Require Import Ascii Floats ZArith QArith Qround Qabs Lia Lqa.
From stdpp Require Import base strings list pretty.

Open Scope string_scope.
Set Warnings "-register-all,-inexact-float".

(** ** JavaScript values *)

(** Values that reach the component: what [JSON.parse] produces, plus
    [undefined].  An object is its list of own properties, looked up by the
    first entry with the key.  [VStr s] is the string whose UTF-16 code
    units are the characters of [s], one for one: only code units below 256
    occur, and [length] and the indices of such a string are those of [s]. *)
Inductive value : Type :=
| VUndefined
| VNull
| VBool (b : bool)
| VNum (x : float)
| VStr (s : string)
| VArr (elems : list value)
| VObj (fields : list (string * value)).

(** A thrown value, as far as the component looks at it: [err.message].
    [None] stands for a thrown object without a message. *)
Record JsError : Type := mkError { message : option string }.

(** The outcome of evaluating an expression that may throw. *)
Inductive result (A : Type) : Type :=
| Ok (a : A)
| Throw (e : JsError).
Arguments Ok {A} a.
Arguments Throw {A} e.

Definition bind {A B : Type} (r : result A) (k : A -> result B) : result B :=
  match r with
  | Ok a => k a
  | Throw e => Throw e
  end.

Notation "'let*' x ':=' r 'in' k" := (bind r (fun x => k))
  (at level 10, x name, r at level 100, k at level 200).

Fixpoint mapM {A B : Type} (f : A -> result B) (l : list A) : result (list B) :=
  match l with
  | [] => Ok []
  | a :: l' => let* b := f a in let* bs := mapM f l' in Ok (b :: bs)
  end.

(** What the platform supplies and the repository does not define. *)
Record Host : Type := mkHost {
  (** [String(x)] for a number [x], as in a template literal. *)
  Number_toString : float -> string;
  (** [Number(v)] for a string, an array or an object. *)
  ToNumber_other : value -> float;
  (** [JSON.stringify(v, null, 2)]. *)
  JSON_stringify : value -> string;
  (** The [TypeError] raised by reading or calling property [k] of [v]. *)
  TypeError : value -> string -> JsError;
  (** The URL minted by the [n]-th call of [URL.createObjectURL]. *)
  mintObjectURL : nat -> string
}.

(** ** Coercions and property access *)

Definition str_truthy (s : string) : bool := negb (String.eqb s "").

Definition truthy (v : value) : bool :=
  match v with
  | VUndefined | VNull => false
  | VBool b => b
  | VNum x => negb (PrimFloat.is_zero x || PrimFloat.is_nan x)
  | VStr s => str_truthy s
  | VArr _ | VObj _ => true
  end.

(** [a || b] on values. *)
Definition or_else (a b : value) : value := if truthy a then a else b.

Definition float_of_nat (n : nat) : float :=
  PrimFloat.of_uint63 (Uint63.of_Z (Z.of_nat n)).

Fixpoint assoc (k : string) (fields : list (string * value)) : value :=
  match fields with
  | [] => VUndefined
  | (k', v) :: rest => if String.eqb k' k then v else assoc k rest
  end.

(** The element of an array whose index has the decimal numeral [k]. *)
Fixpoint array_own (l : list value) (i : nat) (k : string) : value :=
  match l with
  | [] => VUndefined
  | x :: rest => if String.eqb (pretty i) k then x else array_own rest (S i) k
  end.

Fixpoint string_own (s : string) (i : nat) (k : string) : value :=
  match s with
  | EmptyString => VUndefined
  | String c rest =>
      if String.eqb (pretty i) k then VStr (String c EmptyString)
      else string_own rest (S i) k
  end.

Section WithHost.

Variable host : Host.

(** [v.k] and [v[k]].  Reading a property of [undefined] or [null] throws;
    numbers and booleans have no data properties; arrays and strings have
    [length] and their indices.  Inherited properties are methods, which the
    component only calls ([map], [toFixed], [startsWith]); they are modelled
    at their call sites. *)
Definition get_prop (v : value) (k : string) : result value :=
  match v with
  | VUndefined | VNull => Throw (TypeError host v k)
  | VBool _ | VNum _ => Ok VUndefined
  | VStr s =>
      if String.eqb k "length" then Ok (VNum (float_of_nat (String.length s)))
      else Ok (string_own s 0 k)
  | VArr l =>
      if String.eqb k "length" then Ok (VNum (float_of_nat (length l)))
      else Ok (array_own l 0 k)
  | VObj fields => Ok (assoc k fields)
  end.

(** [v.map(f)]: only an array has a callable [map]. *)
Definition call_map (v : value) (f : value -> result value) : result value :=
  match v with
  | VArr l => let* l' := mapM f l in Ok (VArr l')
  | _ => Throw (TypeError host v "map")
  end.

Definition ToNumber (v : value) : float :=
  match v with
  | VUndefined => nan
  | VNull => 0%float
  | VBool true => 1%float
  | VBool false => 0%float
  | VNum x => x
  | VStr _ | VArr _ | VObj _ => ToNumber_other host v
  end.

End WithHost.

(** ** [Number.prototype.toFixed] *)

(** The magnitude [m * 2^e] of a finite float, exactly. *)
Definition magnitude (m : positive) (e : Z) : Q :=
  match e with
  | Z0 => Zpos m # 1
  | Zpos p => (Zpos m * 2 ^ Zpos p) # 1
  | Zneg p => Zpos m # (2 ^ p)
  end.

(** The real number a float denotes; [None] for NaN and the infinities. *)
Definition exact_value (x : float) : option Q :=
  match Prim2SF x with
  | S754_zero _ => Some 0%Q
  | S754_finite false m e => Some (magnitude m e)
  | S754_finite true m e => Some (- magnitude m e)%Q
  | S754_infinity _ | S754_nan => None
  end.

(** The integer [n] for which [n - q] is closest to zero, the larger one
    when there are two. *)
Definition round_half_up (q : Q) : Z := Qfloor (q + (1 # 2)).

Fixpoint str_take (n : nat) (s : string) : string :=
  match n, s with
  | S n', String c s' => String c (str_take n' s')
  | _, _ => ""
  end.

Fixpoint str_drop (n : nat) (s : string) : string :=
  match n, s with
  | S n', String _ s' => str_drop n' s'
  | _, _ => s
  end.

Fixpoint zeroes (n : nat) : string :=
  match n with
  | O => ""
  | S n' => String "0"%char (zeroes n')
  end.

(** Steps 9 and 10 of the algorithm: the digits of [n], padded on the left
    to [f + 1] characters, with a point before the last [f]. *)
Definition fixed_digits (f : nat) (n : Z) : string :=
  let m := pretty n in
  match f with
  | O => m
  | S _ =>
      let k := String.length m in
      let m := if (k <=? f)%nat then zeroes (f + 1 - k) +:+ m else m in
      let k := String.length m in
      str_take (k - f) m +:+ "." +:+ str_drop (k - f) m
  end.

Section ToFixed.

Variable host : Host.

(** [x.toFixed(f)] for [0 <= f <= 100]. *)
Definition toFixed (f : nat) (x : float) : string :=
  match Prim2SF x with
  | S754_nan => "NaN"
  | S754_infinity false => "Infinity"
  | S754_infinity true => "-Infinity"
  | S754_zero _ => fixed_digits f 0
  | S754_finite sgn m e =>
      let s := if sgn then "-" else "" in
      let q := magnitude m e in
      if Qle_bool (inject_Z (10 ^ 21)) q
      then s +:+ Number_toString host (PrimFloat.abs x)
      else s +:+ fixed_digits f (round_half_up (q * inject_Z (10 ^ Z.of_nat f)))
  end.

End ToFixed.

(** ** Component state *)

(** A [File] handed over by the file picker, and the connected client of
    the client variant; the component passes both on without looking inside. *)
Record File : Type := mkFile { file_name : string }.
Record Client : Type := mkClient { space : string }.

Record Dimensions : Type := mkDimensions { width : float; height : float }.
Record ScaleFactors : Type := mkScale { scaleX : float; scaleY : float }.

(** The two variants of the component. *)
Inductive Variant : Type := Rest | ClientApi.

(** The [useState] cells.  The REST variant has no [client] cell and never
    reads it. *)
Record State : Type := mkState {
  client : option Client;
  imageFile : option File;
  imagePreview : option string;
  detections : value;
  isLoading : bool;
  error : option string;
  originalImageDimensions : option Dimensions;
  displayedImageDimensions : option Dimensions
}.

Definition initialState : State :=
  mkState None None None (VArr []) false None None None.

Definition setClient (c : option Client) (s : State) : State :=
  mkState c (imageFile s) (imagePreview s) (detections s) (isLoading s)
          (error s) (originalImageDimensions s) (displayedImageDimensions s).
Definition setImageFile (f : option File) (s : State) : State :=
  mkState (client s) f (imagePreview s) (detections s) (isLoading s)
          (error s) (originalImageDimensions s) (displayedImageDimensions s).
Definition setImagePreview (p : option string) (s : State) : State :=
  mkState (client s) (imageFile s) p (detections s) (isLoading s)
          (error s) (originalImageDimensions s) (displayedImageDimensions s).
Definition setDetections (d : value) (s : State) : State :=
  mkState (client s) (imageFile s) (imagePreview s) d (isLoading s)
          (error s) (originalImageDimensions s) (displayedImageDimensions s).
Definition setIsLoading (l : bool) (s : State) : State :=
  mkState (client s) (imageFile s) (imagePreview s) (detections s) l
          (error s) (originalImageDimensions s) (displayedImageDimensions s).
Definition setError (e : option string) (s : State) : State :=
  mkState (client s) (imageFile s) (imagePreview s) (detections s) (isLoading s)
          e (originalImageDimensions s) (displayedImageDimensions s).
Definition setOriginalImageDimensions (d : option Dimensions) (s : State) : State :=
  mkState (client s) (imageFile s) (imagePreview s) (detections s) (isLoading s)
          (error s) d (displayedImageDimensions s).
Definition setDisplayedImageDimensions (d : option Dimensions) (s : State) : State :=
  mkState (client s) (imageFile s) (imagePreview s) (detections s) (isLoading s)
          (error s) (originalImageDimensions s) d.

(** What the component does to the browser: preview URLs minted and
    revoked, and detection requests sent (latest first in both logs). *)
Record Browser : Type := mkBrowser {
  minted : nat;
  revoked : list string;
  requests : list File
}.

Definition initialBrowser : Browser := mkBrowser 0 [] [].

Definition revokeObjectURL (url : string) (b : Browser) : Browser :=
  mkBrowser (minted b) (url :: revoked b) (requests b).

Definition send_request (f : File) (b : Browser) : Browser :=
  mkBrowser (minted b) (revoked b) (f :: requests b).

(** How a detection request ends.  REST: [fetch] rejects, or resolves to a
    response whose [json()] rejects or resolves.  Client: [predict] rejects
    or resolves. *)
Inductive Outcome : Type :=
| FetchRejected (e : JsError)
| FetchResponded (ok : bool) (status : nat) (statusText : string)
                 (json : result value)
| PredictRejected (e : JsError)
| PredictResolved (res : value).

Section Component.

Variable host : Host.

Definition createObjectURL (f : File) (b : Browser) : string * Browser :=
  (mintObjectURL host (minted b),
   mkBrowser (S (minted b)) (revoked b) (requests b)).

(** [if (imagePreview && imagePreview.startsWith('blob:'))
       URL.revokeObjectURL(imagePreview)] *)
Definition revoke_if_blob (preview : option string) (b : Browser) : Browser :=
  match preview with
  | Some url =>
      if str_truthy url && String.prefix "blob:" url
      then revokeObjectURL url b else b
  | None => b
  end.

(** *** handleFileSelect *)
Definition handleFileSelect (files : list File) (s : State) (b : Browser)
  : State * Browser :=
  let imagePreview0 := imagePreview s in
  match files with
  | [] => (s, b)
  | file :: _ =>
      let s := setDetections (VArr []) s in
      let s := setError None s in
      let s := setOriginalImageDimensions None s in
      let s := setDisplayedImageDimensions None s in
      let b := revoke_if_blob imagePreview0 b in
      let s := setImageFile (Some file) s in
      let '(url, b) := createObjectURL file b in
      (setImagePreview (Some url) s, b)
  end.

(** *** detectObjects, up to its first [await] *)
Definition detectObjects_start (v : Variant) (s : State) (b : Browser)
  : State * Browser :=
  let begin (f : File) :=
    let s := setIsLoading true s in
    let s := setDetections (VArr []) s in
    let s := setError None s in
    (s, send_request f b) in
  match v with
  | Rest =>
      match imageFile s with
      | None => (setError (Some "Please select an image first.") s, b)
      | Some f => begin f
      end
  | ClientApi =>
      match imageFile s, client s with
      | Some f, Some _ => begin f
      | _, None => (setError (Some "Client not ready. Please wait.") s, b)
      | None, Some _ => (setError (Some "Please select an image first.") s, b)
      end
  end.

(** The REST variant's [det => ({ name: det.class_name, ... })]. *)
Definition format_detection (det : value) : result value :=
  let* name := get_prop host det "class_name" in
  let* confidence := get_prop host det "confidence" in
  let* bbox0 := get_prop host det "bbox" in
  let* x1 := get_prop host bbox0 "0" in
  let* bbox1 := get_prop host det "bbox" in
  let* y1 := get_prop host bbox1 "1" in
  let* bbox2 := get_prop host det "bbox" in
  let* x2 := get_prop host bbox2 "2" in
  let* bbox3 := get_prop host det "bbox" in
  let* y2 := get_prop host bbox3 "3" in
  Ok (VObj [("name", name); ("confidence", confidence);
            ("box", VObj [("x1", x1); ("y1", y1); ("x2", x2); ("y2", y2)])]).

(** The body of the [try] block: the value handed to [setDetections]
    before [|| []], or the exception that reaches [catch]. *)
Definition detectObjects_try (o : Outcome) : result value :=
  match o with
  | FetchRejected e => Throw e
  | FetchResponded ok status statusText json =>
      if negb ok
      then Throw (mkError (Some ("API Error: " +:+ pretty status +:+ " "
                                  +:+ statusText)))
      else
        let* result := json in
        let* dets := get_prop host result "detections" in
        call_map host dets format_detection
  | PredictRejected e => Throw e
  | PredictResolved result =>
      let* data := get_prop host result "data" in
      get_prop host data "0"
  end.

(** [err.message || "An unknown error occurred."] *)
Definition error_text (err : JsError) : string :=
  match message err with
  | Some m => if str_truthy m then m else "An unknown error occurred."
  | None => "An unknown error occurred."
  end.

(** *** detectObjects, from the settling of the request to its end *)
Definition detectObjects_settle (o : Outcome) (s : State) : State :=
  let s :=
    match detectObjects_try o with
    | Ok dets => setDetections (or_else dets (VArr [])) s
    | Throw err =>
        setError (Some ("Failed to detect objects: " +:+ error_text err)) s
    end in
  setIsLoading false s.

(** *** The other handlers *)
Definition onImageLoad (natural displayed : Dimensions) (s : State) : State :=
  setDisplayedImageDimensions (Some displayed)
    (setOriginalImageDimensions (Some natural) s).

(** [img] is the size of [imageRef.current], when there is one. *)
Definition handleResize (img : option Dimensions) (s : State) : State :=
  match img with
  | Some d => setDisplayedImageDimensions (Some d) s
  | None => s
  end.

(** The client variant's [connectClient]. *)
Definition connectClient (r : result Client) (s : State) : State :=
  match r with
  | Ok app => setClient (Some app) s
  | Throw _ =>
      setError (Some "Failed to connect to the detection service. Please refresh the page.") s
  end.

(** [disabled] of the Detect button. *)
Definition detect_disabled (v : Variant) (s : State) : bool :=
  match v with
  | Rest => negb (bool_decide (is_Some (imageFile s))) || isLoading s
  | ClientApi =>
      negb (bool_decide (is_Some (imageFile s))) || isLoading s
      || negb (bool_decide (is_Some (client s)))
  end.

End Component.

(** ** Rendering *)

(** The value of [a && b]: the element, or the falsy value that stopped the
    chain (React draws nothing for [false], [null] and [undefined]). *)
Inductive slot (A : Type) : Type :=
| Shown (a : A)
| Skipped (v : value).
Arguments Shown {A} a.
Arguments Skipped {A} v.

Record Style : Type := mkStyle {
  css_left : string;
  css_top : string;
  css_width : string;
  css_height : string;
  borderColor : string;
  borderWidth : string
}.

(** One bounding box: the outer [div] with its [key] and [style], and the
    children of the label [div]. *)
Record Overlay : Type := mkOverlay {
  key : nat;
  style : Style;
  label : list value
}.

(** The [img] with the boxes drawn over it. *)
Record ImageArea : Type := mkImageArea {
  src : string;
  boxes : slot (list Overlay)
}.

Record View : Type := mkView {
  spinner : bool;
  image : option ImageArea;
  errorBanner : option string;
  detectDisabled : bool;
  jsonPanel : slot string
}.

Section Render.

Variable host : Host.

Definition getScaleFactors (s : State) : option ScaleFactors :=
  match originalImageDimensions s, displayedImageDimensions s with
  | Some original, Some displayed =>
      Some (mkScale (width displayed / width original)
                    (height displayed / height original))
  | _, _ => None
  end.

(** A number in a [`${...}px`] template. *)
Definition px (x : float) : string := Number_toString host x +:+ "px".

(** The callback of [detections.map]. *)
Definition render_detection (sf : ScaleFactors) (index : nat) (det : value)
  : result Overlay :=
  let* box := get_prop host det "box" in
  let* name := get_prop host det "name" in
  let* confidence := get_prop host det "confidence" in
  let* x1 := get_prop host box "x1" in
  let* y1 := get_prop host box "y1" in
  let* x2 := get_prop host box "x2" in
  let* y2 := get_prop host box "y2" in
  let st :=
    mkStyle (px (ToNumber host x1 * scaleX sf))
            (px (ToNumber host y1 * scaleY sf))
            (px ((ToNumber host x2 - ToNumber host x1) * scaleX sf))
            (px ((ToNumber host y2 - ToNumber host y1) * scaleY sf))
            "#10B981" "2px" in
  Ok (mkOverlay index st
        [name; VStr " ("; VStr (toFixed host 1 (ToNumber host confidence * 100));
         VStr "%)"]).

Fixpoint render_detections (sf : ScaleFactors) (index : nat) (dets : list value)
  : result (list Overlay) :=
  match dets with
  | [] => Ok []
  | det :: rest =>
      let* o := render_detection sf index det in
      let* os := render_detections sf (S index) rest in
      Ok (o :: os)
  end.

(** [scaleFactors && detections.map(...)] *)
Definition render_boxes (s : State) : result (slot (list Overlay)) :=
  match getScaleFactors s with
  | None => Ok (Skipped VNull)
  | Some sf =>
      match detections s with
      | VArr dets => let* os := render_detections sf 0 dets in Ok (Shown os)
      | other => Throw (TypeError host other "map")
      end
  end.

(** [detections && detections.length > 0 && (...)] *)
Definition render_json (s : State) : result (slot string) :=
  if truthy (detections s) then
    let* len := get_prop host (detections s) "length" in
    if (0 <? ToNumber host len)%float
    then Ok (Shown (JSON_stringify host (detections s)))
    else Ok (Skipped (VBool false))
  else Ok (Skipped (detections s)).

Definition render (v : Variant) (s : State) : result View :=
  let* img :=
    match imagePreview s with
    | Some url =>
        if str_truthy url
        then let* bs := render_boxes s in Ok (Some (mkImageArea url bs))
        else Ok None
    | None => Ok None
    end in
  let* json := render_json s in
  Ok (mkView (isLoading s) img
             (match error s with
              | Some e => if str_truthy e then Some e else None
              | None => None
              end)
             (detect_disabled v s) json).

(** The text React shows for a child: strings and numbers as they are,
    nothing for booleans, [null] and [undefined], the children of an array
    in order; an object is refused. *)
Fixpoint child_text (v : value) : option string :=
  match v with
  | VStr s => Some s
  | VNum x => Some (Number_toString host x)
  | VBool _ | VNull | VUndefined => Some ""
  | VArr l =>
      (fix children (l : list value) : option string :=
         match l with
         | [] => Some ""
         | c :: rest =>
             match child_text c, children rest with
             | Some a, Some b => Some (a +:+ b)
             | _, _ => None
             end
         end) l
  | VObj _ => None
  end.

Definition text_content (children : list value) : option string :=
  child_text (VArr children).

End Render.

(** The rectangles a view draws. *)
Definition drawn_boxes (view : View) : list Overlay :=
  match image view with
  | Some area =>
      match boxes area with
      | Shown os => os
      | Skipped _ => []
      end
  | None => []
  end.

(** ** The component over time *)

Inductive Event : Type :=
| FileSelected (files : list File)
| DetectClicked
| Settled (o : Outcome)
| ImageLoaded (natural displayed : Dimensions)
| Resized (img : option Dimensions)
| Connected (r : result Client).

Section Lifecycle.

Variable host : Host.
Variable v : Variant.

(** The effect keyed on [imagePreview]: when a render changes the preview,
    the cleanup installed by the previous render runs, with the preview that
    render saw. *)
Definition commit_effects (before : State) (after : State) (b : Browser)
  : Browser :=
  if decide (imagePreview before = imagePreview after) then b
  else revoke_if_blob (imagePreview before) b.

(** The handler an event runs.  A click on the disabled Detect button does
    nothing; [Settled o] is the browser resuming [detectObjects] after its
    [await], for a request sent earlier. *)
Definition handle (ev : Event) (s : State) (b : Browser) : State * Browser :=
  match ev with
  | FileSelected files => handleFileSelect host files s b
  | DetectClicked =>
      if detect_disabled v s then (s, b) else detectObjects_start v s b
  | Settled o => (detectObjects_settle host o s, b)
  | ImageLoaded natural displayed => (onImageLoad natural displayed s, b)
  | Resized img => (handleResize img s, b)
  | Connected r => (connectClient r s, b)
  end.

(** One event: the handler, then the effects of the render it causes. *)
Definition step (ev : Event) (c : State * Browser) : State * Browser :=
  let '(s', b') := handle ev (fst c) (snd c) in
  (s', commit_effects (fst c) s' b').

Definition run (evs : list Event) (c : State * Browser) : State * Browser :=
  fold_left (fun c ev => step ev c) evs c.

(** Teardown: the cleanup of the effect in place runs one last time. *)
Definition unmount (c : State * Browser) : Browser :=
  revoke_if_blob (imagePreview (fst c)) (snd c).

End Lifecycle.

(** How often [url] has been revoked. *)
Definition times_revoked (b : Browser) (url : string) : nat :=
  count_occ String.string_dec (revoked b) url.

(** While the component is mounted: the preview on screen is the URL minted
    last and has not been revoked; every URL minted before it has been
    revoked twice. *)
Definition preview_invariant (host : Host) (c : State * Browser) : Prop :=
  imagePreview (fst c)
  = match minted (snd c) with
    | O => None
    | S k => Some (mintObjectURL host k)
    end /\
  forall i : nat,
    times_revoked (snd c) (mintObjectURL host i)
    = if (S i <? minted (snd c))%nat then 2%nat else 0%nat.

(** ** The canonical detection *)

Record Box : Type := mkBox { x1 : float; y1 : float; x2 : float; y2 : float }.

Record Detection : Type := mkDetection {
  name : string;
  confidence : float;
  box : Box
}.

(** [{name, confidence, box: {x1, y1, x2, y2}}] as a JavaScript value. *)
Definition canonical (d : Detection) : value :=
  VObj [("name", VStr (name d)); ("confidence", VNum (confidence d));
        ("box", VObj [("x1", VNum (x1 (box d))); ("y1", VNum (y1 (box d)));
                      ("x2", VNum (x2 (box d))); ("y2", VNum (y2 (box d)))])].

(** A record as the REST service sends it: a string [class_name], a number
    [confidence] and a [bbox] array of four numbers. *)
Definition rest_record (det : value) : option Detection :=
  match det with
  | VObj fields =>
      match assoc "class_name" fields, assoc "confidence" fields,
            assoc "bbox" fields with
      | VStr n, VNum c, VArr [VNum a1; VNum b1; VNum a2; VNum b2] =>
          Some (mkDetection n c (mkBox a1 b1 a2 b2))
      | _, _, _ => None
      end
  | _ => None
  end.

(** [v] has the canonical shape: a string [name], a number [confidence] and
    a [box] object with four numbers [x1], [y1], [x2], [y2]. *)
Definition is_canonical (v : value) : bool :=
  match v with
  | VObj fields =>
      match assoc "name" fields, assoc "confidence" fields, assoc "box" fields with
      | VStr _, VNum _, VObj coords =>
          match assoc "x1" coords, assoc "y1" coords,
                assoc "x2" coords, assoc "y2" coords with
          | VNum _, VNum _, VNum _, VNum _ => true
          | _, _, _, _ => false
          end
      | _, _, _ => false
      end
  | _ => false
  end.

Definition all_canonical (v : value) : bool :=
  match v with
  | VArr l => forallb is_canonical l
  | _ => false
  end.

(** ** A host for the examples *)

(** Integers below [10^21] print as JavaScript prints them; the examples
    draw no other number.  Minted URLs are numbered. *)
Definition sample_toString (x : float) : string :=
  match exact_value x with
  | Some q =>
      if Qeq_bool q (inject_Z (Qfloor q)) && Qle_bool (Qabs q) (inject_Z (10 ^ 21 - 1))
      then pretty (Qfloor q) else "<number>"
  | None => "<number>"
  end.

Definition sample_host : Host :=
  mkHost sample_toString
         (fun _ => nan)
         (fun _ => "<json>")
         (fun _ k => mkError (Some ("Cannot read properties (reading '" +:+ k +:+ "')")))
         (fun n => "blob:http://localhost/" +:+ pretty n).

Definition fileA : File := mkFile "a.jpg".
Definition fileB : File := mkFile "b.jpg".

(** Sample payloads: one pothole as the REST service sends it, the same
    with its bounding box given as fields, the canonical detection, a
    payload of the wrong shape, and a successful REST response. *)
Definition pothole_rest : value :=
  VObj [("class_name", VStr "pothole"); ("confidence", VNum 0.9);
        ("bbox", VArr [VNum 10; VNum 20; VNum 110; VNum 220])].

Definition pothole_fields : value :=
  VObj [("class_name", VStr "pothole"); ("confidence", VNum 0.9);
        ("bbox", VObj [("x1", VNum 10); ("y1", VNum 20);
                       ("x2", VNum 110); ("y2", VNum 220)])].

Definition pothole : Detection :=
  mkDetection "pothole" 0.9 (mkBox 10 20 110 220).

Definition bad_payload : value :=
  VObj [("detections", VArr [VObj [("bbox", VArr [])]])].

Definition pothole_response : Outcome :=
  FetchResponded true 200 "OK" (Ok (VObj [("detections", VArr [pothole_rest])])).

(** A REST payload whose record has an object for its [class_name]. *)
Definition object_name_payload : value :=
  VObj [("detections",
         VArr [VObj [("class_name", VObj [("id", VNum 1)]);
                     ("confidence", VNum 0.9);
                     ("bbox", VArr [VNum 10; VNum 20; VNum 110; VNum 220])]])].

(** ** Notions used by the properties of traces *)

(** [undefined] or [null]: the values whose properties cannot be read. *)
Definition nullish (v : value) : bool :=
  match v with
  | VUndefined | VNull => true
  | _ => false
  end.

(** [v.k] for a [v] that is not nullish. *)
Definition read (host : Host) (v : value) (k : string) : value :=
  match get_prop host v k with
  | Ok x => x
  | Throw _ => VUndefined
  end.

(** The shape [format_detection] builds, whatever the values in it. *)
Definition formatted (v : value) : Prop :=
  exists n c a1 b1 a2 b2 : value,
    v = VObj [("name", n); ("confidence", c);
              ("box", VObj [("x1", a1); ("y1", b1); ("x2", a2); ("y2", b2)])].

(** The number of requests that settle in a trace. *)
Fixpoint settled_count (evs : list Event) : nat :=
  match evs with
  | [] => O
  | Settled _ :: rest => S (settled_count rest)
  | _ :: rest => settled_count rest
  end.


(** The client never connects in the trace. *)
Definition never_connected (evs : list Event) : bool :=
  forallb (fun ev =>
             match ev with
             | Connected (Ok _) => false
             | _ => true
             end) evs.

(** [url] is one of the first [n] URLs minted. *)
Definition minted_before (host : Host) (n : nat) (url : string) : Prop :=
  exists i : nat, (i < n)%nat /\ url = mintObjectURL host i.

(** The files the selections of a trace carry, latest first: the first file
    of every selection that has one. *)
Fixpoint selected_files (evs : list Event) (acc : list File) : list File :=
  match evs with
  | [] => acc
  | FileSelected (f :: _) :: rest => selected_files rest (f :: acc)
  | _ :: rest => selected_files rest acc
  end.

(** ** Properties *)

(** *** File selection *)

(** C10: a selection event without a file leaves the whole state as it was;
    nothing is revoked, minted or sent, as a handler call and as a step of
    the component. *)
Theorem handleFileSelect_no_file (host : Host) (v : Variant) (s : State) (b : Browser) :
  handleFileSelect host [] s b = (s, b) /\
  step host v (FileSelected []) (s, b) = (s, b).
Proof.
  split; [reflexivity|].
  unfold step, handle, commit_effects; simpl.
  destruct (decide (imagePreview s = imagePreview s)); congruence.
Qed.

(** C3: after a selection that carries a file, detections are the empty
    list, the error is null and both dimension records are null; the file
    and a fresh preview are in place; the handler sends no request, so any
    later request starts from the reset state. *)
Theorem handleFileSelect_resets (host : Host) (v : Variant) (s : State)
    (b : Browser) (file : File) (rest : list File) :
  let s' := fst (handleFileSelect host (file :: rest) s b) in
  let b' := snd (handleFileSelect host (file :: rest) s b) in
  detections s' = VArr [] /\ error s' = None /\
  originalImageDimensions s' = None /\ displayedImageDimensions s' = None /\
  imageFile s' = Some file /\
  imagePreview s' = Some (mintObjectURL host (minted b)) /\
  requests b' = requests b /\
  fst (step host v (FileSelected (file :: rest)) (s, b)) = s' /\
  requests (snd (step host v (FileSelected (file :: rest)) (s, b))) = requests b.
Proof.
  unfold step, handle, commit_effects, handleFileSelect, revoke_if_blob; simpl.
  repeat split; try reflexivity;
    repeat (case_match; simpl; try reflexivity).
Qed.

(** *** Detection without an image *)

(** C6: with no image selected, [detectObjects] only sets a non-empty error
    message, which is then the value of the error cell: nothing is sent, the
    loading flag and every other cell keep their values. *)
Theorem detectObjects_no_image (v : Variant) (s : State) (b : Browser) :
  imageFile s = None ->
  exists msg : string,
    msg <> "" /\
    detectObjects_start v s b = (setError (Some msg) s, b) /\
    error (fst (detectObjects_start v s b)) = Some msg /\
    isLoading (fst (detectObjects_start v s b)) = isLoading s /\
    requests (snd (detectObjects_start v s b)) = requests b.
Proof.
  intros Hnone. unfold detectObjects_start. rewrite Hnone.
  destruct v.
  - exists "Please select an image first.". repeat split; (discriminate || reflexivity).
  - destruct (client s).
    + exists "Please select an image first.". repeat split; (discriminate || reflexivity).
    + exists "Client not ready. Please wait.". repeat split; (discriminate || reflexivity).
Qed.

Lemma detectObjects_no_image_witness :
  exists msg : string,
    msg <> "" /\
    detectObjects_start ClientApi initialState initialBrowser
      = (setError (Some msg) initialState, initialBrowser) /\
    error (fst (detectObjects_start ClientApi initialState initialBrowser))
      = Some msg /\
    isLoading (fst (detectObjects_start ClientApi initialState initialBrowser))
      = isLoading initialState /\
    requests (snd (detectObjects_start ClientApi initialState initialBrowser))
      = requests initialBrowser.
Proof. apply (detectObjects_no_image ClientApi initialState initialBrowser). reflexivity. Defined.

(** *** Rendering *)

Lemma json_panel_empty (host : Host) (s : State) :
  detections s = VArr [] -> render_json host s = Ok (Skipped (VBool false)).
Proof. intros H. unfold render_json. rewrite H. reflexivity. Qed.

(** C7: with an empty detection list the render succeeds, draws no
    rectangle, and the JSON panel is skipped ([false] stands in its
    place). *)
Theorem render_empty_detections (host : Host) (v : Variant) (s : State) :
  detections s = VArr [] ->
  exists view : View,
    render host v s = Ok view /\
    drawn_boxes view = [] /\
    jsonPanel view = Skipped (VBool false).
Proof.
  intros Hd. unfold render.
  rewrite (json_panel_empty host s Hd).
  destruct (imagePreview s) as [url|] eqn:Hp; simpl.
  - destruct (str_truthy url); simpl.
    + unfold render_boxes. rewrite Hd.
      destruct (getScaleFactors s); simpl;
        eexists; repeat split; reflexivity.
    + eexists; repeat split; reflexivity.
  - eexists; repeat split; reflexivity.
Qed.

Lemma render_empty_detections_witness :
  exists view : View,
    render sample_host Rest
      (mkState None (Some fileA) (Some "blob:http://localhost/0") (VArr [])
         false None (Some (mkDimensions 1000 800)) (Some (mkDimensions 500 400)))
      = Ok view /\
    drawn_boxes view = [] /\
    jsonPanel view = Skipped (VBool false).
Proof. apply render_empty_detections. reflexivity. Defined.

(** The callback of [detections.map] on a canonical detection. *)
Lemma render_detection_canonical (host : Host) (sf : ScaleFactors) (i : nat)
    (d : Detection) :
  render_detection host sf i (canonical d) =
  Ok (mkOverlay i
        (mkStyle (px host (x1 (box d) * scaleX sf))
                 (px host (y1 (box d) * scaleY sf))
                 (px host ((x2 (box d) - x1 (box d)) * scaleX sf))
                 (px host ((y2 (box d) - y1 (box d)) * scaleY sf))
                 "#10B981" "2px")
        [VStr (name d); VStr " (";
         VStr (toFixed host 1 (confidence d * 100)); VStr "%)"]).
Proof. reflexivity. Qed.

Lemma render_detections_canonical (host : Host) (sf : ScaleFactors)
    (ds : list Detection) :
  forall i : nat,
  exists os : list Overlay,
    render_detections host sf i (map canonical ds) = Ok os /\
    map style os =
    map (fun d =>
           mkStyle (px host (x1 (box d) * scaleX sf))
                   (px host (y1 (box d) * scaleY sf))
                   (px host ((x2 (box d) - x1 (box d)) * scaleX sf))
                   (px host ((y2 (box d) - y1 (box d)) * scaleY sf))
                   "#10B981" "2px") ds.
Proof.
  induction ds as [|d ds IH]; intros i.
  - exists []. split; reflexivity.
  - destruct (IH (S i)) as (os & Hos & Hst).
    eexists. split.
    + cbn [map render_detections]. rewrite render_detection_canonical.
      cbn [bind]. rewrite Hos. reflexivity.
    + cbn [map style]. rewrite Hst. reflexivity.
Qed.

Lemma render_json_array (host : Host) (s : State) (l : list value) :
  detections s = VArr l -> exists j, render_json host s = Ok j.
Proof.
  intros H. unfold render_json. rewrite H. cbn.
  match goal with
  | |- context [if ?c then _ else _] => destruct c
  end; eexists; reflexivity.
Qed.

(** C1: with natural size (W, H), displayed size (w, h), a preview on
    screen and canonical detections stored, the scale factors are w / W and
    h / H, and the boxes drawn have, in order, left = x1 * scaleX,
    top = y1 * scaleY, width = (x2 - x1) * scaleX and
    height = (y2 - y1) * scaleY, each written as a pixel length. *)
Theorem overlay_rectangles (host : Host) (v : Variant) (s : State)
    (W H w h : float) (url : string) (ds : list Detection) :
  originalImageDimensions s = Some (mkDimensions W H) ->
  displayedImageDimensions s = Some (mkDimensions w h) ->
  imagePreview s = Some url -> url <> "" ->
  detections s = VArr (map canonical ds) ->
  getScaleFactors s = Some (mkScale (w / W) (h / H)) /\
  exists (view : View) (os : list Overlay),
    render host v s = Ok view /\
    image view = Some (mkImageArea url (Shown os)) /\
    map style os =
    map (fun d =>
           mkStyle (px host (x1 (box d) * (w / W)))
                   (px host (y1 (box d) * (h / H)))
                   (px host ((x2 (box d) - x1 (box d)) * (w / W)))
                   (px host ((y2 (box d) - y1 (box d)) * (h / H)))
                   "#10B981" "2px") ds.
Proof.
  intros Ho Hd Hp Hurl Hdets.
  assert (Hsf : getScaleFactors s = Some (mkScale (w / W) (h / H))).
  { unfold getScaleFactors. rewrite Ho, Hd. reflexivity. }
  split; [exact Hsf|].
  destruct (render_detections_canonical host (mkScale (w / W) (h / H)) ds 0)
    as (os & Hos & Hst).
  destruct (render_json_array host s _ Hdets) as (j & Hj).
  assert (Ht : str_truthy url = true).
  { unfold str_truthy. destruct (String.eqb_spec url ""); [contradiction|reflexivity]. }
  eexists. exists os. split; [|split; [|exact Hst]].
  - unfold render. rewrite Hp, Ht. unfold render_boxes.
    rewrite Hsf, Hdets, Hos. cbn [bind]. rewrite Hj. cbn [bind]. reflexivity.
  - reflexivity.
Qed.

Lemma overlay_rectangles_witness :
  getScaleFactors
    (mkState None (Some fileA) (Some "blob:http://localhost/0")
       (VArr (map canonical [mkDetection "pothole" 0.5 (mkBox 100 200 300 400)]))
       false None (Some (mkDimensions 1000 800)) (Some (mkDimensions 500 400)))
  = Some (mkScale (500 / 1000) (400 / 800)) /\
  exists (view : View) (os : list Overlay),
    render sample_host Rest
      (mkState None (Some fileA) (Some "blob:http://localhost/0")
         (VArr (map canonical [mkDetection "pothole" 0.5 (mkBox 100 200 300 400)]))
         false None (Some (mkDimensions 1000 800)) (Some (mkDimensions 500 400)))
      = Ok view /\
    image view = Some (mkImageArea "blob:http://localhost/0" (Shown os)) /\
    map style os = [mkStyle "50px" "100px" "100px" "100px" "#10B981" "2px"].
Proof.
  apply (overlay_rectangles sample_host Rest _ 1000 800 500 400
           "blob:http://localhost/0"
           [mkDetection "pothole" 0.5 (mkBox 100 200 300 400)]);
    (reflexivity || discriminate).
Defined.

(** *** Labels *)

(** **** Strings and decimal numerals *)

Lemma str_app_cons (ch : ascii) (a b : string) :
  String ch a +:+ b = String ch (a +:+ b).
Proof. reflexivity. Qed.

Lemma str_app_assoc (a b c : string) : (a +:+ b) +:+ c = a +:+ (b +:+ c).
Proof.
  induction a as [|ch a IH]; [reflexivity|].
  rewrite !str_app_cons. f_equal. exact IH.
Qed.

Lemma str_length_app (a b : string) :
  String.length (a +:+ b) = (String.length a + String.length b)%nat.
Proof.
  induction a as [|ch a IH]; [reflexivity|].
  rewrite str_app_cons. cbn [String.length]. rewrite IH. reflexivity.
Qed.

Lemma str_take_app (a b : string) : str_take (String.length a) (a +:+ b) = a.
Proof.
  induction a as [|ch a IH]; [by destruct b|].
  rewrite str_app_cons. cbn [String.length str_take]. f_equal. exact IH.
Qed.

Lemma str_drop_app (a b : string) : str_drop (String.length a) (a +:+ b) = b.
Proof.
  induction a as [|ch a IH]; [reflexivity|].
  rewrite str_app_cons. cbn [String.length str_drop]. exact IH.
Qed.

Lemma pretty_N_go_app (x : N) : forall s, pretty_N_go x s = pretty_N_go x "" +:+ s.
Proof.
  induction (N.lt_wf_0 x) as [x _ IH]; intros s.
  destruct (decide (x = 0)%N) as [->|Hx].
  - reflexivity.
  - rewrite (pretty_N_go_step x s), (pretty_N_go_step x "") by lia.
    rewrite (IH (x `div` 10)%N) by (apply N.div_lt; lia).
    rewrite (IH (x `div` 10)%N ltac:(apply N.div_lt; lia) (String _ "")).
    rewrite str_app_assoc. reflexivity.
Qed.

Lemma pretty_N_digit (d : N) : (d < 10)%N -> pretty d = String (pretty_N_char d) "".
Proof.
  intros Hd. unfold pretty, pretty_N.
  destruct (decide (d = 0)%N) as [->|Hd0]; [reflexivity|].
  rewrite pretty_N_go_step by lia.
  rewrite N.div_small, N.mod_small by lia. reflexivity.
Qed.

Lemma pretty_N_snoc (n : N) :
  (10 <= n)%N ->
  pretty n = pretty (n `div` 10)%N +:+ String (pretty_N_char (n `mod` 10)) "".
Proof.
  intros Hn. unfold pretty, pretty_N.
  assert (0 < n `div` 10)%N by (apply N.div_str_pos; lia).
  destruct (decide (n = 0)%N); [lia|].
  destruct (decide (n `div` 10 = 0)%N); [lia|].
  rewrite pretty_N_go_step by lia.
  apply pretty_N_go_app.
Qed.

Lemma pretty_N_nonempty (n : N) : (1 <= String.length (pretty n))%nat.
Proof.
  destruct (decide (n < 10)%N).
  - rewrite pretty_N_digit by done. simpl. lia.
  - rewrite pretty_N_snoc by lia. rewrite str_length_app. simpl. lia.
Qed.

Lemma pretty_Z_of_N (n : N) : pretty (Z.of_N n) = pretty n.
Proof. destruct n; reflexivity. Qed.

Lemma fixed_digits_one_N (n : N) :
  fixed_digits 1 (Z.of_N n) = pretty (n `div` 10)%N +:+ "." +:+ pretty (n `mod` 10)%N.
Proof.
  unfold fixed_digits. rewrite pretty_Z_of_N.
  rewrite (pretty_N_digit (n `mod` 10)) by (apply N.mod_lt; lia).
  destruct (decide (n < 10)%N) as [Hlt|Hge].
  - rewrite (pretty_N_digit n) by done.
    rewrite N.div_small, N.mod_small by done. reflexivity.
  - rewrite (pretty_N_snoc n) by lia.
    pose proof (pretty_N_nonempty (n `div` 10)) as Hlen.
    rewrite !str_length_app. cbn [String.length].
    destruct (Nat.leb_spec (String.length (pretty (n `div` 10)%N) + 1) 1); [lia|].
    rewrite !str_length_app. cbn [String.length].
    replace (String.length (pretty (n `div` 10)%N) + 1 - 1)%nat
      with (String.length (pretty (n `div` 10)%N)) by lia.
    rewrite str_take_app, str_drop_app. reflexivity.
Qed.

Lemma fixed_digits_one (n : Z) :
  (0 <= n)%Z ->
  fixed_digits 1 n = pretty (n `div` 10)%Z +:+ "." +:+ pretty (n `mod` 10)%Z.
Proof.
  intros Hn. rewrite <- (Z2N.id n Hn) at 1.
  rewrite fixed_digits_one_N.
  rewrite <- !pretty_Z_of_N.
  rewrite N2Z.inj_div, N2Z.inj_mod, Z2N.id by done. reflexivity.
Qed.

(** **** Rounding *)

Lemma magnitude_pos (m : positive) (e : Z) : (0 < magnitude m e)%Q.
Proof.
  destruct e as [|p|p]; unfold magnitude, Qlt; cbn [Qnum Qden]; lia.
Qed.

Lemma round_half_up_nonneg (q : Q) : (0 <= q)%Q -> (0 <= round_half_up q)%Z.
Proof.
  intros Hq. unfold round_half_up.
  change 0%Z with (Qfloor 0). apply Qfloor_resp_le. lra.
Qed.

(** [round_half_up q] is within one half of [q], and ties go up. *)
Lemma round_half_up_nearest (q : Q) :
  (q - (1 # 2) < inject_Z (round_half_up q) <= q + (1 # 2))%Q.
Proof.
  unfold round_half_up.
  pose proof (Qfloor_le (q + (1 # 2))) as Hle.
  pose proof (Qlt_floor (q + (1 # 2))) as Hlt.
  rewrite inject_Z_plus in Hlt. change (inject_Z 1) with 1%Q in Hlt.
  split; lra.
Qed.

Lemma toFixed_one (host : Host) (x : float) (q : Q) :
  exact_value x = Some q -> (0 <= q)%Q -> (q < inject_Z (10 ^ 21))%Q ->
  toFixed host 1 x =
  pretty (round_half_up (q * 10) `div` 10)%Z +:+ "." +:+
  pretty (round_half_up (q * 10) `mod` 10)%Z.
Proof.
  unfold exact_value, toFixed. intros Hx Hq0 Hq1.
  destruct (Prim2SF x) as [sg| | |sg m e]; try discriminate.
  - injection Hx as <-. reflexivity.
  - destruct sg.
    + injection Hx as <-. pose proof (magnitude_pos m e). lra.
    + injection Hx as <-.
      destruct (Qle_bool (inject_Z (10 ^ 21)) (magnitude m e)) eqn:Hb.
      * apply Qle_bool_iff in Hb. lra.
      * change (inject_Z (10 ^ Z.of_nat 1)) with 10%Q.
        change ("" +:+ ?s) with s.
        apply fixed_digits_one, round_half_up_nonneg.
        nra.
Qed.

Lemma str_app_nil_r (a : string) : a +:+ "" = a.
Proof.
  induction a as [|ch a IH]; [reflexivity|].
  rewrite str_app_cons. f_equal. exact IH.
Qed.

Lemma text_content_strings (host : Host) (a b c d : string) :
  text_content host [VStr a; VStr b; VStr c; VStr d] = Some (a +:+ b +:+ c +:+ d).
Proof.
  unfold text_content. cbn [child_text]. rewrite str_app_nil_r. reflexivity.
Qed.

(** C8: the label of a detection reads [name (D%)], where [D] is
    [(confidence * 100).toFixed(1)].  When the product is a finite number
    [q] with [0 <= q < 10^21] (as for a confidence between 0 and 1), [D] is
    the decimal numeral of [n / 10] with one fractional digit, [n] being the
    integer nearest to [10 q], the larger one on a tie: the product rounded
    to one decimal place.  A confidence of 0.8567 shows as [85.7%]. *)
Theorem label_text (host : Host) (sf : ScaleFactors) (i : nat) (d : Detection)
    (q : Q) :
  exact_value (confidence d * 100) = Some q ->
  (0 <= q)%Q -> (q < inject_Z (10 ^ 21))%Q ->
  let n := round_half_up (q * 10) in
  (exists o : Overlay,
     render_detection host sf i (canonical d) = Ok o /\
     text_content host (label o)
       = Some (name d +:+ " (" +:+ toFixed host 1 (confidence d * 100) +:+ "%)")) /\
  toFixed host 1 (confidence d * 100)
    = pretty (n `div` 10)%Z +:+ "." +:+ pretty (n `mod` 10)%Z /\
  (q - (1 # 20) < inject_Z n / 10 <= q + (1 # 20))%Q /\
  (confidence d = 0.8567%float ->
   toFixed host 1 (confidence d * 100) +:+ "%" = "85.7%").
Proof.
  intros Hx Hq0 Hq1 n.
  pose proof (toFixed_one host _ q Hx Hq0 Hq1) as Hfix. fold n in Hfix.
  split; [|split; [exact Hfix|split]].
  - eexists. split; [apply render_detection_canonical|].
    cbn [label]. apply text_content_strings.
  - pose proof (round_half_up_nearest (q * 10)) as [Hlo Hhi]. fold n in Hlo, Hhi.
    clearbody n. unfold Qdiv. change (/ 10)%Q with (1 # 10)%Q.
    split; lra.
  - intros Hc. rewrite Hfix. subst n. rewrite Hc in Hx.
    vm_compute in Hx. injection Hx as <-. vm_compute. reflexivity.
Qed.

Lemma label_text_witness :
  (exists o : Overlay,
     render_detection sample_host (mkScale 0.5 0.5) 0
       (canonical (mkDetection "pothole" 0.8567 (mkBox 100 200 300 400))) = Ok o /\
     text_content sample_host (label o) = Some "pothole (85.7%)") /\
  toFixed sample_host 1 (0.8567 * 100) = "85.7" /\
  ((6028490313700475 # 70368744177664) - (1 # 20) < inject_Z 857 / 10
     <= (6028490313700475 # 70368744177664) + (1 # 20))%Q /\
  (0.8567%float = 0.8567%float -> toFixed sample_host 1 (0.8567 * 100) +:+ "%" = "85.7%").
Proof.
  apply (label_text sample_host (mkScale 0.5 0.5) 0
           (mkDetection "pothole" 0.8567 (mkBox 100 200 300 400))
           (6028490313700475 # 70368744177664)).
  - vm_compute. reflexivity.
  - vm_compute. discriminate.
  - vm_compute. reflexivity.
Defined.

(** *** The detection client *)

Lemma is_canonical_canonical (d : Detection) : is_canonical (canonical d) = true.
Proof. reflexivity. Qed.

Lemma all_canonical_map (ds : list Detection) :
  all_canonical (VArr (map canonical ds)) = true.
Proof.
  cbn [all_canonical]. induction ds as [|d ds IH]; [reflexivity|].
  cbn [map forallb]. rewrite is_canonical_canonical. exact IH.
Qed.

Lemma format_detection_rest_record (host : Host) (det : value) (d : Detection) :
  rest_record det = Some d -> format_detection host det = Ok (canonical d).
Proof.
  unfold rest_record. intros H.
  destruct det as [| | | | | |fields]; try discriminate.
  destruct (assoc "class_name" fields) as [| | | |n| |] eqn:Hn; try discriminate.
  destruct (assoc "confidence" fields) as [| | |c | | |] eqn:Hc; try discriminate.
  destruct (assoc "bbox" fields) as [| | | | |bb|] eqn:Hb; try discriminate.
  destruct bb as [|[| | |a1| | |] [|[| | |b1| | |] [|[| | |a2| | |] [|[| | |b2| | |] [|]]]]];
    try discriminate.
  injection H as <-.
  unfold format_detection, get_prop. rewrite Hn, Hc, Hb. reflexivity.
Qed.

Lemma mapM_format_rest_records (host : Host) (recs : list value)
    (ds : list Detection) :
  Forall2 (fun r d => rest_record r = Some d) recs ds ->
  mapM (format_detection host) recs = Ok (map canonical ds).
Proof.
  induction 1 as [|r d recs ds Hr _ IH]; [reflexivity|].
  cbn [mapM map]. rewrite (format_detection_rest_record host r d Hr).
  cbn [bind]. rewrite IH. reflexivity.
Qed.

Lemma settle_ok (host : Host) (o : Outcome) (dets : value) (s : State) :
  detectObjects_try host o = Ok dets ->
  detectObjects_settle host o s
  = setIsLoading false (setDetections (or_else dets (VArr [])) s).
Proof. intros H. unfold detectObjects_settle. rewrite H. reflexivity. Qed.

Lemma settle_throw (host : Host) (o : Outcome) (e : JsError) (s : State) :
  detectObjects_try host o = Throw e ->
  detectObjects_settle host o s
  = setIsLoading false
      (setError (Some ("Failed to detect objects: " +:+ error_text e)) s).
Proof. intros H. unfold detectObjects_settle. rewrite H. reflexivity. Qed.

(** C4, as the code has it: the REST variant rebuilds every record of
    [result.detections]; records with a string [class_name], a number
    [confidence] and a [bbox] array of four numbers are stored as canonical
    detections [{name, confidence, box: {x1, y1, x2, y2}}].  The client
    variant stores [result.data[0]] as it arrives ([[]] when it is falsy):
    it converts nothing. *)
Theorem detections_normalised (host : Host) (s : State)
    (status : nat) (statusText : string) (fields : list (string * value))
    (recs : list value) (ds : list Detection)
    (cfields : list (string * value)) (payload : value) (more : list value) :
  assoc "detections" fields = VArr recs ->
  Forall2 (fun r d => rest_record r = Some d) recs ds ->
  assoc "data" cfields = VArr (payload :: more) ->
  detections
    (detectObjects_settle host
       (FetchResponded true status statusText (Ok (VObj fields))) s)
  = VArr (map canonical ds) /\
  all_canonical
    (detections
       (detectObjects_settle host
          (FetchResponded true status statusText (Ok (VObj fields))) s)) = true /\
  detections (detectObjects_settle host (PredictResolved (VObj cfields)) s)
  = or_else payload (VArr []).
Proof.
  intros Hf Hrecs Hc.
  assert (Hrest : detectObjects_try host
                    (FetchResponded true status statusText (Ok (VObj fields)))
                  = Ok (VArr (map canonical ds))).
  { cbn [detectObjects_try negb bind get_prop]. rewrite Hf.
    cbn [call_map]. rewrite (mapM_format_rest_records host recs ds Hrecs).
    reflexivity. }
  rewrite (settle_ok host _ _ s Hrest).
  split; [reflexivity|]. split; [apply all_canonical_map|].
  rewrite (settle_ok host _ payload); [reflexivity|].
  cbn [detectObjects_try bind get_prop]. rewrite Hc. reflexivity.
Qed.

Lemma detections_normalised_witness :
  detections
    (detectObjects_settle sample_host
       (FetchResponded true 200 "OK"
          (Ok (VObj [("detections", VArr [pothole_rest])]))) initialState)
  = VArr [canonical pothole] /\
  all_canonical
    (detections
       (detectObjects_settle sample_host
          (FetchResponded true 200 "OK"
             (Ok (VObj [("detections", VArr [pothole_rest])]))) initialState))
  = true /\
  detections
    (detectObjects_settle sample_host
       (PredictResolved (VObj [("data", VArr [VArr [canonical pothole]])]))
       initialState)
  = VArr [canonical pothole].
Proof.
  apply (detections_normalised sample_host initialState 200%nat "OK"
           [("detections", VArr [pothole_rest])] [pothole_rest] [pothole]
           [("data", VArr [VArr [canonical pothole]])]
           (VArr [canonical pothole]) []).
  - reflexivity.
  - repeat constructor.
  - reflexivity.
Defined.

(** The client variant stores a record with an array [bbox] unchanged, and
    the REST variant turns a [bbox] given as fields into a box of
    [undefined] coordinates: neither result is canonical. *)
Lemma detections_not_normalised :
  let client_stored :=
    detections
      (detectObjects_settle sample_host
         (PredictResolved (VObj [("data", VArr [VArr [pothole_rest]])]))
         initialState) in
  let rest_stored :=
    detections
      (detectObjects_settle sample_host
         (FetchResponded true 200 "OK"
            (Ok (VObj [("detections", VArr [pothole_fields])]))) initialState) in
  client_stored = VArr [pothole_rest] /\ all_canonical client_stored = false /\
  rest_stored
    = VArr [VObj [("name", VStr "pothole"); ("confidence", VNum 0.9);
                  ("box", VObj [("x1", VUndefined); ("y1", VUndefined);
                                ("x2", VUndefined); ("y2", VUndefined)])]] /\
  all_canonical rest_stored = false.
Proof. vm_compute. repeat split; reflexivity. Qed.

(** *** Requests over time *)

Lemma settle_preview (host : Host) (o : Outcome) (s : State) :
  imagePreview (detectObjects_settle host o s) = imagePreview s.
Proof. unfold detectObjects_settle. destruct (detectObjects_try host o); reflexivity. Qed.

Lemma step_settled (host : Host) (v : Variant) (o : Outcome)
    (c : State * Browser) :
  step host v (Settled o) c = (detectObjects_settle host o (fst c), snd c).
Proof.
  unfold step, handle, commit_effects. cbn [fst snd].
  rewrite settle_preview.
  destruct (decide (imagePreview (fst c) = imagePreview (fst c))); congruence.
Qed.

(** The Detect button is enabled and a click sends the request. *)
Lemma step_detect_clicked (host : Host) (v : Variant) (s : State) (b : Browser)
    (f : File) :
  imageFile s = Some f ->
  (v = ClientApi -> is_Some (client s)) ->
  isLoading s = false ->
  step host v DetectClicked (s, b)
  = (setError None (setDetections (VArr []) (setIsLoading true s)),
     send_request f b).
Proof.
  intros Hf Hc Hl. unfold step, handle, commit_effects, detect_disabled,
    detectObjects_start. cbn [fst snd]. rewrite Hf, Hl.
  destruct v.
  - cbn. destruct (decide (imagePreview s = imagePreview s)); congruence.
  - destruct (Hc eq_refl) as [cl Hcl]. rewrite Hcl. cbn.
    destruct (decide (imagePreview s = imagePreview s)); congruence.
Qed.

Lemma settle_loading (host : Host) (o : Outcome) (s : State) :
  isLoading (detectObjects_settle host o s) = false.
Proof. reflexivity. Qed.

Lemma call_map_not_array (host : Host) (v : value) (f : value -> result value) :
  (forall l, v <> VArr l) -> call_map host v f = Throw (TypeError host v "map").
Proof. intros H. destruct v; try reflexivity. destruct (H elems eq_refl). Qed.

(** C5, as the code has it: once a request has been sent (an image is
    selected, the client is there in the client variant), whatever happens
    before it settles and however it settles, the loading flag is false
    afterwards.  Every outcome that raises an exception sets the error to
    the one message [Failed to detect objects: ...]: a rejected call, a
    status that is not a success, a body that fails to parse, a payload
    without a [detections] array or without [data]. *)
Theorem request_always_settles (host : Host) (v : Variant) (s : State)
    (b : Browser) (f : File) (evs : list Event) (o : Outcome) :
  imageFile s = Some f ->
  (v = ClientApi -> is_Some (client s)) ->
  isLoading s = false ->
  let c1 := step host v DetectClicked (s, b) in
  let c2 := step host v (Settled o) (run host v evs c1) in
  requests (snd c1) = f :: requests b /\
  isLoading (fst c1) = true /\
  isLoading (fst c2) = false /\
  (forall e : JsError,
      detectObjects_try host o = Throw e ->
      error (fst c2) = Some ("Failed to detect objects: " +:+ error_text e)) /\
  (forall e : JsError,
      detectObjects_try host (FetchRejected e) = Throw e /\
      detectObjects_try host (PredictRejected e) = Throw e) /\
  (forall (status : nat) (statusText : string) (json : result value),
      detectObjects_try host (FetchResponded false status statusText json)
      = Throw (mkError (Some ("API Error: " +:+ pretty status +:+ " "
                               +:+ statusText)))) /\
  (forall (status : nat) (statusText : string) (e : JsError),
      detectObjects_try host (FetchResponded true status statusText (Throw e))
      = Throw e) /\
  (forall (status : nat) (statusText : string) (fields : list (string * value)),
      (forall recs, assoc "detections" fields <> VArr recs) ->
      detectObjects_try host
        (FetchResponded true status statusText (Ok (VObj fields)))
      = Throw (TypeError host (assoc "detections" fields) "map")) /\
  (forall fields : list (string * value),
      assoc "data" fields = VUndefined ->
      detectObjects_try host (PredictResolved (VObj fields))
      = Throw (TypeError host VUndefined "0")).
Proof.
  intros Hf Hc Hl c1 c2. subst c2 c1.
  rewrite (step_detect_clicked host v s b f Hf Hc Hl).
  rewrite step_settled. cbn [fst snd].
  split; [reflexivity|]. split; [reflexivity|]. split; [apply settle_loading|].
  split.
  { intros e He. rewrite (settle_throw host o e _ He). reflexivity. }
  split; [intros e; split; reflexivity|].
  split; [reflexivity|]. split; [reflexivity|]. split.
  - intros status statusText fields Hna.
    cbn [detectObjects_try negb bind get_prop].
    apply call_map_not_array, Hna.
  - intros fields Hd. cbn [detectObjects_try bind get_prop]. rewrite Hd.
    reflexivity.
Qed.

Lemma request_always_settles_witness :
  let c1 := step sample_host Rest DetectClicked
              (setImageFile (Some fileA) initialState, initialBrowser) in
  let c2 := step sample_host Rest
              (Settled (FetchResponded false 500 "Internal Server Error" (Ok VNull)))
              (run sample_host Rest [Resized None] c1) in
  requests (snd c1) = [fileA] /\
  isLoading (fst c1) = true /\
  isLoading (fst c2) = false /\
  error (fst c2)
  = Some "Failed to detect objects: API Error: 500 Internal Server Error".
Proof.
  pose proof (request_always_settles sample_host Rest
                (setImageFile (Some fileA) initialState) initialBrowser fileA
                [Resized None]
                (FetchResponded false 500 "Internal Server Error" (Ok VNull))
                eq_refl (fun H => match H with end) eq_refl)
    as (H1 & H2 & H3 & H4 & _).
  cbv zeta. split; [exact H1|]. split; [exact H2|]. split; [exact H3|].
  apply (H4 (mkError (Some "API Error: 500 Internal Server Error"))).
  reflexivity.
Defined.

(** A payload of the wrong shape that raises no exception is stored, and no
    error is shown. *)
Lemma malformed_payload_not_surfaced :
  let c1 := step sample_host Rest DetectClicked
              (setImageFile (Some fileA) initialState, initialBrowser) in
  let c2 := step sample_host Rest
              (Settled (FetchResponded true 200 "OK" (Ok bad_payload))) c1 in
  requests (snd c1) = [fileA] /\
  rest_record (VObj [("bbox", VArr [])]) = None /\
  error (fst c2) = None /\
  all_canonical (detections (fst c2)) = false /\
  detections (fst c2)
  = VArr [VObj [("name", VUndefined); ("confidence", VUndefined);
                ("box", VObj [("x1", VUndefined); ("y1", VUndefined);
                              ("x2", VUndefined); ("y2", VUndefined)])]].
Proof. vm_compute. repeat split; reflexivity. Qed.

Lemma revoke_if_blob_minted (p : option string) (b : Browser) :
  minted (revoke_if_blob p b) = minted b.
Proof.
  unfold revoke_if_blob. destruct p as [url|]; [|reflexivity].
  destruct (str_truthy url && String.prefix "blob:" url); reflexivity.
Qed.

Lemma revoke_if_blob_requests (p : option string) (b : Browser) :
  requests (revoke_if_blob p b) = requests b.
Proof.
  unfold revoke_if_blob. destruct p as [url|]; [|reflexivity].
  destruct (str_truthy url && String.prefix "blob:" url); reflexivity.
Qed.

Lemma step_file_selected (host : Host) (v : Variant) (s : State) (b : Browser)
    (f : File) (rest : list File) :
  fst (step host v (FileSelected (f :: rest)) (s, b))
  = mkState (client s) (Some f) (Some (mintObjectURL host (minted b)))
      (VArr []) (isLoading s) None None None /\
  requests (snd (step host v (FileSelected (f :: rest)) (s, b))) = requests b.
Proof.
  unfold step, handle, commit_effects, handleFileSelect, createObjectURL.
  cbn [fst snd]. split.
  - unfold setImagePreview, setImageFile. cbn.
    rewrite revoke_if_blob_minted. reflexivity.
  - case_decide; cbn [requests];
      rewrite ?revoke_if_blob_requests; cbn [requests];
      rewrite ?revoke_if_blob_requests; reflexivity.
Qed.

(** C2, as the code has it: a request is sent for image A, image B is
    selected while it is in flight, then the response arrives.  Selecting B
    clears the detections, but the response is applied without a check:
    afterwards B is the selected image and the detections stored are those
    of the response to the request for A. *)
Theorem stale_response_stored (host : Host) (v : Variant) (s : State)
    (b : Browser) (fA fB : File) (more : list File) (o : Outcome)
    (dets : value) :
  imageFile s = Some fA ->
  (v = ClientApi -> is_Some (client s)) ->
  isLoading s = false ->
  detectObjects_try host o = Ok dets ->
  let c1 := step host v DetectClicked (s, b) in
  let c2 := step host v (FileSelected (fB :: more)) c1 in
  let c3 := step host v (Settled o) c2 in
  requests (snd c3) = fA :: requests b /\
  imageFile (fst c2) = Some fB /\
  detections (fst c2) = VArr [] /\
  isLoading (fst c2) = true /\
  imageFile (fst c3) = Some fB /\
  detections (fst c3) = or_else dets (VArr []) /\
  isLoading (fst c3) = false.
Proof.
  intros Hf Hc Hl Ho c1 c2 c3. subst c3 c2 c1.
  rewrite (step_detect_clicked host v s b fA Hf Hc Hl).
  rewrite step_settled. cbn [fst snd].
  match goal with
  | |- context [step host v (FileSelected (fB :: more)) (?s1, ?b1)] =>
      destruct (step_file_selected host v s1 b1 fB more) as [Hs Hb]
  end.
  rewrite Hb, Hs, (settle_ok host o dets _ Ho).
  repeat split; reflexivity.
Qed.

Lemma stale_response_stored_witness :
  let c1 := step sample_host Rest DetectClicked
              (setImageFile (Some fileA) initialState, initialBrowser) in
  let c2 := step sample_host Rest (FileSelected [fileB]) c1 in
  let c3 := step sample_host Rest (Settled pothole_response) c2 in
  requests (snd c3) = [fileA] /\
  imageFile (fst c2) = Some fileB /\
  detections (fst c2) = VArr [] /\
  isLoading (fst c2) = true /\
  imageFile (fst c3) = Some fileB /\
  detections (fst c3) = VArr [canonical pothole] /\
  isLoading (fst c3) = false.
Proof.
  apply (stale_response_stored sample_host Rest
           (setImageFile (Some fileA) initialState) initialBrowser
           fileA fileB [] pothole_response (VArr [canonical pothole])).
  - reflexivity.
  - discriminate.
  - reflexivity.
  - reflexivity.
Defined.

(** The response to the request for [fileA] arrives after [fileB] was
    selected, and its detections are stored as those of [fileB]. *)
Lemma stale_response_applied :
  let c := run sample_host Rest
             [FileSelected [fileA]; DetectClicked; FileSelected [fileB];
              Settled pothole_response]
             (initialState, initialBrowser) in
  requests (snd c) = [fileA] /\
  fileA <> fileB /\
  imageFile (fst c) = Some fileB /\
  detections (fst c) = VArr [canonical pothole].
Proof.
  vm_compute. repeat split; try reflexivity. discriminate.
Qed.

(** *** Preview URLs *)

Lemma step_no_file (host : Host) (v : Variant) (c : State * Browser) :
  step host v (FileSelected []) c = c.
Proof.
  destruct c as [s b]. unfold step, handle, commit_effects. cbn.
  case_decide; congruence.
Qed.

Lemma revoke_blob (url : string) (b : Browser) :
  String.prefix "blob:" url = true ->
  revoke_if_blob (Some url) b = revokeObjectURL url b.
Proof.
  intros H. unfold revoke_if_blob. rewrite H.
  destruct url; [discriminate|reflexivity].
Qed.

Lemma blob_guard (url : string) :
  String.prefix "blob:" url = true ->
  str_truthy url && String.prefix "blob:" url = true.
Proof. intros H. rewrite H. destruct url; [discriminate|reflexivity]. Qed.

Section PreviewUrls.

Variable host : Host.
Variable v : Variant.

Hypothesis mint_inj :
  forall i j : nat, mintObjectURL host i = mintObjectURL host j -> i = j.
Hypothesis mint_blob :
  forall i : nat, String.prefix "blob:" (mintObjectURL host i) = true.

Lemma preview_invariant_initial : preview_invariant host (initialState, initialBrowser).
Proof. split; [reflexivity|]. intros i. reflexivity. Qed.

Lemma preview_invariant_select (s : State) (b : Browser) (f : File)
    (rest : list File) :
  preview_invariant host (s, b) ->
  preview_invariant host (step host v (FileSelected (f :: rest)) (s, b)).
Proof.
  intros [Hp Hc]. cbn [fst snd] in Hp, Hc.
  unfold step, handle, commit_effects, handleFileSelect, createObjectURL.
  cbn [fst snd]. cbv zeta.
  destruct (minted b) as [|k] eqn:Hm; rewrite Hp.
  - cbn. rewrite Hm. split; [reflexivity|].
    intros i. cbn. unfold times_revoked in *. rewrite Hc.
    destruct i; reflexivity.
  - rewrite (revoke_blob _ _ (mint_blob k)). cbn.
    rewrite Hm. case_decide as Heq.
    { injection Heq as Heq. apply mint_inj in Heq. lia. }
    rewrite (blob_guard _ (mint_blob k)).
    split; [reflexivity|]. intros i.
    unfold times_revoked in *. cbn [snd minted revoked revokeObjectURL].
    destruct (decide (i = k)) as [->|Hik].
    + rewrite !count_occ_cons_eq by reflexivity. rewrite Hc.
      destruct (Nat.ltb_spec (S k) (S k)); [lia|].
      destruct (Nat.ltb_spec (S k) (S (S k))); [reflexivity|lia].
    + rewrite !count_occ_cons_neq
        by (intros Heq'; apply Hik; symmetry; apply mint_inj, Heq').
      rewrite Hc.
      destruct (Nat.ltb_spec (S i) (S k)), (Nat.ltb_spec (S i) (S (S k)));
        (reflexivity || lia).
Qed.

Lemma preview_invariant_step (ev : Event) (c : State * Browser) :
  preview_invariant host c -> preview_invariant host (step host v ev c).
Proof.
  destruct c as [s b]. intros Hinv.
  destruct ev as [[|f rest]| |o|n d|img|r].
  - rewrite step_no_file. exact Hinv.
  - apply preview_invariant_select, Hinv.
  - destruct Hinv as [Hp Hc]. unfold step, handle, commit_effects.
    cbn [fst snd].
    destruct (detect_disabled v s).
    + case_decide; [|congruence]. split; assumption.
    + unfold detectObjects_start.
      destruct v, (imageFile s), (client s); cbn;
        (case_decide; [|congruence]); split; assumption.
  - rewrite step_settled. destruct Hinv as [Hp Hc].
    split; [cbn [fst snd]; rewrite settle_preview; exact Hp|exact Hc].
  - destruct Hinv as [Hp Hc]. unfold step, handle, commit_effects. cbn.
    case_decide; [|congruence]. split; assumption.
  - destruct Hinv as [Hp Hc]. unfold step, handle, commit_effects.
    destruct img; cbn; (case_decide; [|congruence]); split; assumption.
  - destruct Hinv as [Hp Hc]. unfold step, handle, commit_effects.
    destruct r; cbn; (case_decide; [|congruence]); split; assumption.
Qed.

Lemma preview_invariant_run (evs : list Event) :
  forall c : State * Browser,
    preview_invariant host c -> preview_invariant host (run host v evs c).
Proof.
  induction evs as [|ev evs IH]; intros c Hinv; [exact Hinv|].
  cbn [run fold_left]. apply IH, preview_invariant_step, Hinv.
Qed.

(** C9, as the code has it: when the component is torn down after any
    sequence of events, every preview URL it minted has been released, so
    none is leaked; the URL on screen at teardown is released once, by the
    cleanup of the effect, and was not released while on screen; every URL
    that was replaced is released twice, by [handleFileSelect] and by the
    cleanup of the effect. *)
Theorem preview_urls_released (evs : list Event) :
  let c := run host v evs (initialState, initialBrowser) in
  let b := unmount c in
  minted b = minted (snd c) /\
  forall i : nat,
    (i < minted b)%nat ->
    times_revoked (snd c) (mintObjectURL host i)
    = (if (S i =? minted b)%nat then 0%nat else 2%nat) /\
    times_revoked b (mintObjectURL host i)
    = (if (S i =? minted b)%nat then 1%nat else 2%nat).
Proof.
  intros c b.
  destruct (preview_invariant_run evs _ preview_invariant_initial) as [Hp Hc].
  fold c in Hp, Hc. subst b. unfold unmount. rewrite Hp.
  destruct (minted (snd c)) as [|k] eqn:Hm.
  - cbn [revoke_if_blob]. split; [exact Hm|]. intros i Hi. rewrite Hm in Hi. lia.
  - rewrite (revoke_blob _ _ (mint_blob k)).
    cbn [minted revokeObjectURL]. split; [exact Hm|]. rewrite Hm.
    intros i Hi. rewrite Hc. unfold times_revoked in *.
    cbn [revoked revokeObjectURL].
    destruct (decide (i = k)) as [->|Hik].
    + rewrite count_occ_cons_eq by reflexivity. rewrite Hc.
      rewrite Nat.eqb_refl.
      destruct (Nat.ltb_spec (S k) (S k)); [lia|]. split; reflexivity.
    + rewrite count_occ_cons_neq
        by (intros Heq; apply Hik; symmetry; apply mint_inj, Heq).
      rewrite Hc.
      destruct (Nat.ltb_spec (S i) (S k)); [|lia].
      destruct (Nat.eqb_spec (S i) (S k)); [lia|]. split; reflexivity.
Qed.

End PreviewUrls.

Lemma sample_mint_inj (i j : nat) :
  mintObjectURL sample_host i = mintObjectURL sample_host j -> i = j.
Proof.
  cbn [mintObjectURL sample_host]. intros H.
  apply (inj (String.app _)) in H. apply (inj pretty) in H. exact H.
Qed.

Lemma sample_mint_blob (i : nat) :
  String.prefix "blob:" (mintObjectURL sample_host i) = true.
Proof. reflexivity. Qed.

Lemma preview_urls_released_witness :
  let c := run sample_host Rest [FileSelected [fileA]; FileSelected [fileB]]
             (initialState, initialBrowser) in
  let b := unmount c in
  minted b = minted (snd c) /\
  forall i : nat,
    (i < minted b)%nat ->
    times_revoked (snd c) (mintObjectURL sample_host i)
    = (if (S i =? minted b)%nat then 0%nat else 2%nat) /\
    times_revoked b (mintObjectURL sample_host i)
    = (if (S i =? minted b)%nat then 1%nat else 2%nat).
Proof.
  exact (preview_urls_released sample_host Rest sample_mint_inj sample_mint_blob
           [FileSelected [fileA]; FileSelected [fileB]]).
Defined.

(** Two selections and a teardown: the first preview URL is revoked twice. *)
Lemma preview_url_revoked_twice :
  let b := unmount (run sample_host Rest
                      [FileSelected [fileA]; FileSelected [fileB]]
                      (initialState, initialBrowser)) in
  minted b = 2%nat /\
  revoked b = [mintObjectURL sample_host 1; mintObjectURL sample_host 0;
               mintObjectURL sample_host 0] /\
  times_revoked b (mintObjectURL sample_host 0) = 2%nat /\
  times_revoked b (mintObjectURL sample_host 0) <> 1%nat.
Proof. vm_compute. repeat split; try reflexivity. discriminate. Qed.

(** ** Further properties *)

(** *** Image geometry *)

(** X1: when the image loads, the scale factors are the displayed size
    over the natural size; a resize replaces the displayed size only, so
    the scale factors follow it while the detections, the image, the
    preview and the browser log stay as they are (nothing is fetched
    again); a resize without an image element changes nothing. *)
Theorem scale_follows_resize (host : Host) (v : Variant) (s : State)
    (b : Browser) (natural displayed resized : Dimensions) :
  let c1 := step host v (ImageLoaded natural displayed) (s, b) in
  let c2 := step host v (Resized (Some resized)) c1 in
  getScaleFactors (fst c1)
  = Some (mkScale (width displayed / width natural)
                  (height displayed / height natural)) /\
  getScaleFactors (fst c2)
  = Some (mkScale (width resized / width natural)
                  (height resized / height natural)) /\
  detections (fst c2) = detections s /\
  imageFile (fst c2) = imageFile s /\
  imagePreview (fst c2) = imagePreview s /\
  snd c2 = b /\
  step host v (Resized None) c2 = c2.
Proof.
  unfold step, handle, commit_effects, onImageLoad, handleResize. cbn [fst snd].
  repeat (case_decide; [|cbn in *; congruence]).
  cbn [fst snd]. repeat split; try reflexivity.
Qed.

(** *** What the view shows *)

Lemma render_no_detections (host : Host) (v : Variant) (s : State) :
  detections s = VArr [] ->
  exists view : View,
    render host v s = Ok view /\
    spinner view = isLoading s /\
    errorBanner view
    = match error s with
      | Some e => if str_truthy e then Some e else None
      | None => None
      end /\
    detectDisabled view = detect_disabled v s /\
    drawn_boxes view = [] /\
    jsonPanel view = Skipped (VBool false).
Proof.
  intros Hd. unfold render.
  rewrite (json_panel_empty host s Hd).
  destruct (imagePreview s) as [url|]; cbn [bind].
  - destruct (str_truthy url); cbn [bind].
    + unfold render_boxes. rewrite Hd.
      destruct (getScaleFactors s); cbn [bind render_detections];
        eexists; repeat split; reflexivity.
    + eexists; repeat split; reflexivity.
  - eexists; repeat split; reflexivity.
Qed.

(** X2: right after a file is selected the view shows the new preview
    with no boxes over it (the scale factors are not known before the image
    loads), no error banner and no JSON panel. *)
Theorem view_after_selection (host : Host) (v : Variant) (s : State)
    (b : Browser) (file : File) (rest : list File) :
  mintObjectURL host (minted b) <> "" ->
  let s' := fst (step host v (FileSelected (file :: rest)) (s, b)) in
  render host v s'
  = Ok (mkView (isLoading s)
          (Some (mkImageArea (mintObjectURL host (minted b)) (Skipped VNull)))
          None (detect_disabled v s') (Skipped (VBool false))).
Proof.
  intros Hurl s'. subst s'.
  destruct (step_file_selected host v s b file rest) as [Hs _]. rewrite Hs.
  unfold render. cbn [imagePreview].
  assert (Ht : str_truthy (mintObjectURL host (minted b)) = true).
  { unfold str_truthy. destruct (String.eqb_spec (mintObjectURL host (minted b)) "");
      [contradiction|reflexivity]. }
  rewrite Ht. reflexivity.
Qed.

Lemma view_after_selection_witness :
  render sample_host Rest
    (fst (step sample_host Rest (FileSelected [fileA]) (initialState, initialBrowser)))
  = Ok (mkView false
          (Some (mkImageArea "blob:http://localhost/0" (Skipped VNull)))
          None false (Skipped (VBool false))).
Proof.
  apply (view_after_selection sample_host Rest initialState initialBrowser fileA []).
  discriminate.
Defined.

(** X3: a click on the enabled Detect button sends the selected file; in
    the view that follows the spinner is shown, the button is disabled, and
    no error, no box and no JSON panel of an earlier request is left. *)
Theorem view_while_loading (host : Host) (v : Variant) (s : State)
    (b : Browser) (f : File) :
  imageFile s = Some f ->
  (v = ClientApi -> is_Some (client s)) ->
  isLoading s = false ->
  let c := step host v DetectClicked (s, b) in
  requests (snd c) = f :: requests b /\
  exists view : View,
    render host v (fst c) = Ok view /\
    spinner view = true /\
    detectDisabled view = true /\
    errorBanner view = None /\
    drawn_boxes view = [] /\
    jsonPanel view = Skipped (VBool false).
Proof.
  intros Hf Hc Hl c. subst c.
  rewrite (step_detect_clicked host v s b f Hf Hc Hl). cbn [fst snd].
  split; [reflexivity|].
  destruct (render_no_detections host v
              (setError None (setDetections (VArr []) (setIsLoading true s)))
              eq_refl) as (view & Hr & Hsp & Hb & Hdis & Hbox & Hj).
  exists view. split; [exact Hr|]. split; [exact Hsp|].
  split; [|split; [exact Hb|split; [exact Hbox|exact Hj]]].
  rewrite Hdis. unfold detect_disabled. cbn [isLoading setError setDetections setIsLoading].
  destruct v; [apply orb_true_r|].
  rewrite orb_true_r. reflexivity.
Qed.

Lemma view_while_loading_witness :
  let c := step sample_host Rest DetectClicked
             (setImageFile (Some fileA) initialState, initialBrowser) in
  requests (snd c) = [fileA] /\
  exists view : View,
    render sample_host Rest (fst c) = Ok view /\
    spinner view = true /\
    detectDisabled view = true /\
    errorBanner view = None /\
    drawn_boxes view = [] /\
    jsonPanel view = Skipped (VBool false).
Proof.
  apply (view_while_loading sample_host Rest
           (setImageFile (Some fileA) initialState) initialBrowser fileA).
  - reflexivity.
  - discriminate.
  - reflexivity.
Defined.

(** *** Requests in flight *)

Lemma step_loading_requests (host : Host) (v : Variant) (ev : Event)
    (c : State * Browser) (k : nat) :
  length (requests (snd c)) <= k + (if isLoading (fst c) then 1 else 0) ->
  length (requests (snd (step host v ev c)))
  <= k + settled_count [ev]
     + (if isLoading (fst (step host v ev c)) then 1 else 0).
Proof.
  destruct c as [s b]. cbn [fst snd]. intros Hinv.
  destruct ev as [[|f rest]| |o|n d|img|r]; cbn [settled_count].
  - rewrite step_no_file. cbn [fst snd]. lia.
  - destruct (step_file_selected host v s b f rest) as [Hs Hb].
    rewrite Hs, Hb. cbn [isLoading]. lia.
  - unfold step, handle, commit_effects, detect_disabled, detectObjects_start.
    cbn [fst snd].
    destruct (isLoading s) eqn:Hl;
      destruct v, (imageFile s), (client s); cbn;
      (case_decide; [|congruence]); cbn; rewrite ?Hl; lia.
  - rewrite step_settled. cbn [fst snd]. rewrite settle_loading.
    destruct (isLoading s); lia.
  - unfold step, handle, commit_effects. cbn.
    case_decide; [|congruence]. cbn. lia.
  - unfold step, handle, commit_effects.
    destruct img; cbn; (case_decide; [|congruence]); cbn; lia.
  - unfold step, handle, commit_effects.
    destruct r; cbn; (case_decide; [|congruence]); cbn; lia.
Qed.

Lemma run_loading_requests (host : Host) (v : Variant) (evs : list Event) :
  forall (c : State * Browser) (k : nat),
    length (requests (snd c)) <= k + (if isLoading (fst c) then 1 else 0) ->
    length (requests (snd (run host v evs c)))
    <= k + settled_count evs
       + (if isLoading (fst (run host v evs c)) then 1 else 0).
Proof.
  induction evs as [|ev evs IH]; intros c k Hinv.
  - cbn [run fold_left settled_count]. lia.
  - cbn [run fold_left].
    pose proof (step_loading_requests host v ev c k Hinv) as Hstep.
    pose proof (IH (step host v ev c) (k + settled_count [ev]) Hstep) as Hrun.
    unfold run in Hrun.
    replace (k + settled_count (ev :: evs))
      with (k + settled_count [ev] + settled_count evs); [exact Hrun|].
    destruct ev; cbn [settled_count]; lia.
Qed.

(** X4: along every trace from the initial state, the requests sent are
    at most the requests settled, plus one while the loading flag is set:
    the button never puts a second request in flight. *)
Theorem one_request_in_flight (host : Host) (v : Variant) (evs : list Event) :
  let c := run host v evs (initialState, initialBrowser) in
  length (requests (snd c))
  <= settled_count evs + (if isLoading (fst c) then 1 else 0).
Proof.
  intros c.
  apply (run_loading_requests host v evs (initialState, initialBrowser) 0).
  cbn. lia.
Qed.

(** *** The client variant before it is connected *)

Lemma run_never_connected (host : Host) (evs : list Event) :
  forall c : State * Browser,
    never_connected evs = true ->
    client (fst c) = None -> requests (snd c) = [] ->
    client (fst (run host ClientApi evs c)) = None /\
    requests (snd (run host ClientApi evs c)) = [].
Proof.
  induction evs as [|ev evs IH]; intros [s b] Hn Hc Hr; [split; assumption|].
  cbn [never_connected forallb] in Hn. apply andb_true_iff in Hn as [Hev Hn].
  cbn [run fold_left]. apply IH; [exact Hn| |]; cbn [fst snd] in *.
  - destruct ev as [[|f rest]| |o|n d|img|r].
    + rewrite step_no_file. exact Hc.
    + destruct (step_file_selected host ClientApi s b f rest) as [Hs _].
      rewrite Hs. exact Hc.
    + unfold step, handle, detect_disabled. cbn [fst snd]. rewrite Hc.
      rewrite orb_true_r. exact Hc.
    + rewrite step_settled. cbn [fst snd]. unfold detectObjects_settle.
      destruct (detectObjects_try host o); exact Hc.
    + exact Hc.
    + destruct img; exact Hc.
    + destruct r; [discriminate|exact Hc].
  - destruct ev as [[|f rest]| |o|n d|img|r].
    + rewrite step_no_file. exact Hr.
    + destruct (step_file_selected host ClientApi s b f rest) as [_ Hb].
      rewrite Hb. exact Hr.
    + unfold step, handle, commit_effects, detect_disabled. cbn [fst snd].
      rewrite Hc. rewrite orb_true_r.
      case_decide; [exact Hr|congruence].
    + rewrite step_settled. exact Hr.
    + unfold step, handle, commit_effects. cbn.
      case_decide; [exact Hr|congruence].
    + unfold step, handle, commit_effects.
      destruct img; cbn; (case_decide; [exact Hr|congruence]).
    + unfold step, handle, commit_effects.
      destruct r; cbn; (case_decide; [exact Hr|congruence]).
Qed.

(** X5: in the client variant, as long as no connection has succeeded the
    client is null, no request has been sent, the Detect button is
    disabled, and [detectObjects] itself only answers that the client is
    not ready: the error cell holds that message, the browser log and the
    loading flag are as before, and still no request is sent. *)
Theorem no_request_before_connection (host : Host) (evs : list Event) :
  never_connected evs = true ->
  let c := run host ClientApi evs (initialState, initialBrowser) in
  client (fst c) = None /\
  requests (snd c) = [] /\
  detect_disabled ClientApi (fst c) = true /\
  detectObjects_start ClientApi (fst c) (snd c)
  = (setError (Some "Client not ready. Please wait.") (fst c), snd c) /\
  error (fst (detectObjects_start ClientApi (fst c) (snd c)))
  = Some "Client not ready. Please wait." /\
  isLoading (fst (detectObjects_start ClientApi (fst c) (snd c)))
  = isLoading (fst c) /\
  requests (snd (detectObjects_start ClientApi (fst c) (snd c))) = [].
Proof.
  intros Hn c.
  destruct (run_never_connected host evs (initialState, initialBrowser) Hn
              eq_refl eq_refl) as [Hc Hr].
  fold c in Hc, Hr.
  split; [exact Hc|]. split; [exact Hr|]. split.
  - unfold detect_disabled. rewrite Hc. apply orb_true_r.
  - unfold detectObjects_start. rewrite Hc.
    destruct (imageFile (fst c)); cbn [fst snd error isLoading setError];
      repeat split; first [reflexivity | exact Hr].
Qed.

Lemma no_request_before_connection_witness :
  let c := run sample_host ClientApi
             [Connected (Throw (mkError (Some "offline"))); FileSelected [fileA];
              DetectClicked]
             (initialState, initialBrowser) in
  client (fst c) = None /\
  requests (snd c) = [] /\
  detect_disabled ClientApi (fst c) = true /\
  detectObjects_start ClientApi (fst c) (snd c)
  = (setError (Some "Client not ready. Please wait.") (fst c), snd c) /\
  error (fst (detectObjects_start ClientApi (fst c) (snd c)))
  = Some "Client not ready. Please wait." /\
  isLoading (fst (detectObjects_start ClientApi (fst c) (snd c)))
  = isLoading (fst c) /\
  requests (snd (detectObjects_start ClientApi (fst c) (snd c))) = [].
Proof.
  apply (no_request_before_connection sample_host
           [Connected (Throw (mkError (Some "offline"))); FileSelected [fileA];
            DetectClicked]).
  reflexivity.
Defined.

(** *** The REST variant's conversion *)

Lemma format_detection_unfold (host : Host) (det : value) :
  format_detection host det =
  if nullish det then Throw (TypeError host det "class_name")
  else
    let bbox := read host det "bbox" in
    if nullish bbox then Throw (TypeError host bbox "0")
    else
      Ok (VObj [("name", read host det "class_name");
                ("confidence", read host det "confidence");
                ("box", VObj [("x1", read host bbox "0");
                              ("y1", read host bbox "1");
                              ("x2", read host bbox "2");
                              ("y2", read host bbox "3")])]).
Proof.
  unfold format_detection, read.
  destruct det as [| |bl|x|str|l|fields]; cbn; try reflexivity.
  - destruct (string_own str 0 "bbox"); cbn; reflexivity.
  - destruct (array_own l 0 "bbox"); cbn; reflexivity.
  - destruct (assoc "bbox" fields); cbn; reflexivity.
Qed.

(** X6: the REST conversion of one record throws exactly when the record
    is [null] or [undefined] (reading [class_name]) or its [bbox] is (reading
    index 0); otherwise it succeeds and yields an object with [name],
    [confidence] and a [box] of [x1], [y1], [x2], [y2], whatever the values
    found. *)
Theorem format_detection_cases (host : Host) (det : value) :
  (nullish det = true ->
   format_detection host det = Throw (TypeError host det "class_name")) /\
  (nullish det = false -> nullish (read host det "bbox") = true ->
   format_detection host det
   = Throw (TypeError host (read host det "bbox") "0")) /\
  (nullish det = false -> nullish (read host det "bbox") = false ->
   exists v : value, format_detection host det = Ok v /\ formatted v).
Proof.
  rewrite format_detection_unfold. cbv zeta.
  split; [|split].
  - intros ->. reflexivity.
  - intros -> ->. reflexivity.
  - intros -> ->. eexists. split; [reflexivity|].
    do 6 eexists. reflexivity.
Qed.

Lemma format_detection_cases_witness :
  format_detection sample_host VNull
  = Throw (TypeError sample_host VNull "class_name") /\
  format_detection sample_host (VObj [("class_name", VStr "pothole")])
  = Throw (TypeError sample_host VUndefined "0") /\
  exists v : value,
    format_detection sample_host pothole_fields = Ok v /\ formatted v.
Proof.
  split; [|split].
  - apply (proj1 (format_detection_cases sample_host VNull)). reflexivity.
  - apply (proj1 (proj2 (format_detection_cases sample_host
                           (VObj [("class_name", VStr "pothole")]))));
      reflexivity.
  - apply (proj2 (proj2 (format_detection_cases sample_host pothole_fields)));
      reflexivity.
Defined.

Lemma format_detection_throws (host : Host) (det : value) :
  nullish det = true \/ nullish (read host det "bbox") = true ->
  exists e : JsError, format_detection host det = Throw e.
Proof.
  rewrite format_detection_unfold. cbv zeta.
  intros [H|H].
  - rewrite H. eexists. reflexivity.
  - destruct (nullish det); [eexists; reflexivity|].
    rewrite H. eexists. reflexivity.
Qed.


Lemma mapM_throws {A B : Type} (f : A -> result B) (l : list A) :
  Exists (fun a => exists e, f a = Throw e) l ->
  exists e : JsError, mapM f l = Throw e.
Proof.
  induction 1 as [a l [e He]|a l _ [e IH]]; cbn [mapM].
  - rewrite He. exists e. reflexivity.
  - destruct (f a) as [b|e']; cbn [bind].
    + rewrite IH. exists e. reflexivity.
    + exists e'. reflexivity.
Qed.

(** X7: one record that is nullish, or whose [bbox] is, rejects the whole
    REST response: the stored detections stay as they were, the error
    message is set and the loading flag is cleared. *)
Theorem bad_record_rejects_response (host : Host) (s : State) (status : nat)
    (statusText : string) (fields : list (string * value))
    (recs : list value) :
  assoc "detections" fields = VArr recs ->
  Exists (fun r => nullish r = true \/ nullish (read host r "bbox") = true) recs ->
  let s' := detectObjects_settle host
              (FetchResponded true status statusText (Ok (VObj fields))) s in
  detections s' = detections s /\
  isLoading s' = false /\
  exists e : JsError,
    error s' = Some ("Failed to detect objects: " +:+ error_text e).
Proof.
  intros Hf Hbad s'.
  assert (Hthrow : exists e, detectObjects_try host
                     (FetchResponded true status statusText (Ok (VObj fields)))
                   = Throw e).
  { cbn [detectObjects_try negb bind get_prop]. rewrite Hf. cbn [call_map].
    destruct (mapM_throws (format_detection host) recs) as [e He].
    - eapply Exists_impl; [exact Hbad|]. intros r Hr.
      apply format_detection_throws, Hr.
    - rewrite He. exists e. reflexivity. }
  destruct Hthrow as [e He]. subst s'.
  rewrite (settle_throw host _ e s He).
  split; [reflexivity|]. split; [reflexivity|]. exists e. reflexivity.
Qed.

Lemma bad_record_rejects_response_witness :
  let s := setDetections (VArr [canonical pothole]) initialState in
  let s' := detectObjects_settle sample_host
              (FetchResponded true 200 "OK"
                 (Ok (VObj [("detections", VArr [pothole_rest; VNull])]))) s in
  detections s' = detections s /\
  isLoading s' = false /\
  exists e : JsError,
    error s' = Some ("Failed to detect objects: " +:+ error_text e).
Proof.
  apply (bad_record_rejects_response sample_host
           (setDetections (VArr [canonical pothole]) initialState) 200%nat "OK"
           [("detections", VArr [pothole_rest; VNull])] [pothole_rest; VNull]).
  - reflexivity.
  - apply Exists_cons_tl, Exists_cons_hd. left. reflexivity.
Defined.

(** *** Rendering what the REST variant stores *)









(** A [class_name] that is an object: [render] returns the view with one
    box, and React has no text for its label. *)
Lemma object_name_label_refused :
  let s := fst (run sample_host Rest
                  [FileSelected [fileA];
                   ImageLoaded (mkDimensions 1000 800) (mkDimensions 500 400);
                   DetectClicked;
                   Settled (FetchResponded true 200 "OK" (Ok object_name_payload))]
                  (initialState, initialBrowser)) in
  exists (view : View) (o : Overlay),
    render sample_host Rest s = Ok view /\
    drawn_boxes view = [o] /\
    label o = [VObj [("id", VNum 1)]; VStr " ("; VStr "90.0"; VStr "%)"] /\
    text_content sample_host (label o) = None.
Proof.
  vm_compute. eexists. eexists. repeat split; reflexivity.
Qed.

(** *** Rendering what the client variant stores *)

(** X9: the client variant stores a payload that is truthy but not an
    array without any error, and once the image is on screen with its
    dimensions known, rendering throws the [TypeError] of calling [map] on
    it. *)
Theorem client_payload_breaks_render (host : Host) (s : State)
    (cfields : list (string * value)) (payload : value) (more : list value)
    (url : string) (natural displayed : Dimensions) :
  assoc "data" cfields = VArr (payload :: more) ->
  truthy payload = true ->
  (forall l : list value, payload <> VArr l) ->
  imagePreview s = Some url -> url <> "" ->
  originalImageDimensions s = Some natural ->
  displayedImageDimensions s = Some displayed ->
  let s' := detectObjects_settle host (PredictResolved (VObj cfields)) s in
  detections s' = payload /\
  error s' = error s /\
  render host ClientApi s' = Throw (TypeError host payload "map").
Proof.
  intros Hdata Htruthy Hna Hp Hurl Ho Hd s'.
  assert (Htry : detectObjects_try host (PredictResolved (VObj cfields))
                 = Ok payload).
  { cbn [detectObjects_try bind get_prop]. rewrite Hdata. reflexivity. }
  subst s'. rewrite (settle_ok host _ payload s Htry).
  unfold or_else. rewrite Htruthy.
  split; [reflexivity|]. split; [reflexivity|].
  unfold render.
  cbn [imagePreview setIsLoading setDetections]. rewrite Hp.
  assert (Ht : str_truthy url = true).
  { unfold str_truthy. destruct (String.eqb_spec url ""); [contradiction|reflexivity]. }
  rewrite Ht. unfold render_boxes, getScaleFactors.
  cbn [originalImageDimensions displayedImageDimensions detections
       setIsLoading setDetections].
  rewrite Ho, Hd.
  destruct payload as [| | | | |l|]; try reflexivity.
  destruct (Hna l eq_refl).
Qed.

Lemma client_payload_breaks_render_witness :
  let s := mkState (Some (mkClient "space")) (Some fileA)
             (Some "blob:http://localhost/0") (VArr []) true None
             (Some (mkDimensions 1000 800)) (Some (mkDimensions 500 400)) in
  let s' := detectObjects_settle sample_host
              (PredictResolved (VObj [("data", VArr [VStr "no potholes"])])) s in
  detections s' = VStr "no potholes" /\
  error s' = error s /\
  render sample_host ClientApi s'
  = Throw (TypeError sample_host (VStr "no potholes") "map").
Proof.
  apply (client_payload_breaks_render sample_host _
           [("data", VArr [VStr "no potholes"])] (VStr "no potholes") []
           "blob:http://localhost/0" (mkDimensions 1000 800)
           (mkDimensions 500 400));
    (reflexivity || discriminate).
Defined.

(** *** After a failed request *)

(** X10: a request that fails leaves the selected image, its preview,
    both dimension records, the client and the stored detections as they
    were, shows a non-empty error, and re-enables the Detect button: the
    next click sends the same file again. *)
Theorem failure_allows_retry (host : Host) (v : Variant) (o : Outcome)
    (e : JsError) (s : State) (f : File) :
  detectObjects_try host o = Throw e ->
  imageFile s = Some f ->
  (v = ClientApi -> is_Some (client s)) ->
  let s' := detectObjects_settle host o s in
  imageFile s' = Some f /\
  imagePreview s' = imagePreview s /\
  detections s' = detections s /\
  originalImageDimensions s' = originalImageDimensions s /\
  displayedImageDimensions s' = displayedImageDimensions s /\
  client s' = client s /\
  (exists msg : string, error s' = Some msg /\ str_truthy msg = true) /\
  detect_disabled v s' = false /\
  forall b : Browser,
    requests (snd (step host v DetectClicked (s', b))) = f :: requests b.
Proof.
  intros He Hf Hc s'. subst s'. rewrite (settle_throw host o e s He).
  cbn [imageFile imagePreview detections originalImageDimensions
       displayedImageDimensions client error setIsLoading setError].
  repeat (split; [first [exact Hf | reflexivity]|]).
  split; [eexists; split; reflexivity|].
  assert (Hdis : detect_disabled v
                   (setIsLoading false
                      (setError
                         (Some ("Failed to detect objects: " +:+ error_text e)) s))
                 = false).
  { unfold detect_disabled.
    cbn [imageFile client isLoading setIsLoading setError]. rewrite Hf.
    destruct v; [reflexivity|].
    destruct (Hc eq_refl) as [cl ->]. reflexivity. }
  split; [exact Hdis|].
  intros b.
  rewrite (step_detect_clicked host v _ b f); [reflexivity| | |reflexivity].
  - exact Hf.
  - exact Hc.
Qed.

Lemma failure_allows_retry_witness :
  let s := setIsLoading true (setImageFile (Some fileA) initialState) in
  let s' := detectObjects_settle sample_host
              (FetchRejected (mkError (Some "Failed to fetch"))) s in
  imageFile s' = Some fileA /\
  imagePreview s' = imagePreview s /\
  detections s' = detections s /\
  originalImageDimensions s' = originalImageDimensions s /\
  displayedImageDimensions s' = displayedImageDimensions s /\
  client s' = client s /\
  (exists msg : string, error s' = Some msg /\ str_truthy msg = true) /\
  detect_disabled Rest s' = false /\
  forall b : Browser,
    requests (snd (step sample_host Rest DetectClicked (s', b)))
    = fileA :: requests b.
Proof.
  apply (failure_allows_retry sample_host Rest
           (FetchRejected (mkError (Some "Failed to fetch")))
           (mkError (Some "Failed to fetch"))
           (setIsLoading true (setImageFile (Some fileA) initialState)) fileA).
  - reflexivity.
  - reflexivity.
  - discriminate.
Defined.

(** *** What is revoked *)

Lemma minted_before_mono (host : Host) (n m : nat) (url : string) :
  (n <= m)%nat -> minted_before host n url -> minted_before host m url.
Proof. intros Hnm (i & Hi & ->). exists i. split; [lia|reflexivity]. Qed.

Lemma revoke_if_blob_known (host : Host) (p : option string) (b : Browser)
    (n : nat) :
  (forall url, p = Some url -> minted_before host n url) ->
  Forall (minted_before host n) (revoked b) ->
  Forall (minted_before host n) (revoked (revoke_if_blob p b)).
Proof.
  intros Hp Hb. unfold revoke_if_blob.
  destruct p as [url|]; [|exact Hb].
  destruct (str_truthy url && String.prefix "blob:" url); [|exact Hb].
  cbn [revoked revokeObjectURL]. constructor; [apply Hp; reflexivity|exact Hb].
Qed.

Lemma step_revokes_minted (host : Host) (v : Variant) (ev : Event)
    (c : State * Browser) :
  (forall url, imagePreview (fst c) = Some url ->
               minted_before host (minted (snd c)) url) ->
  Forall (minted_before host (minted (snd c))) (revoked (snd c)) ->
  (forall url, imagePreview (fst (step host v ev c)) = Some url ->
               minted_before host (minted (snd (step host v ev c))) url) /\
  Forall (minted_before host (minted (snd (step host v ev c))))
         (revoked (snd (step host v ev c))).
Proof.
  destruct c as [s b]. cbn [fst snd]. intros Hp Hb.
  destruct ev as [[|f rest]| |o|n d|img|r].
  - rewrite step_no_file. split; assumption.
  - unfold step, handle, commit_effects, handleFileSelect, createObjectURL.
    cbn [fst snd]. cbv zeta.
    cbn [imagePreview setImagePreview minted revoked].
    rewrite revoke_if_blob_minted.
    assert (Hp' : forall url, imagePreview s = Some url ->
                              minted_before host (S (minted b)) url).
    { intros url Hu. apply (minted_before_mono host (minted b)); [lia|auto]. }
    assert (Hb' : Forall (minted_before host (S (minted b))) (revoked b)).
    { eapply Forall_impl; [exact Hb|]. intros url.
      apply minted_before_mono. lia. }
    split.
    + intros url [= <-]. case_decide; cbn [minted];
        rewrite ?revoke_if_blob_minted; cbn [minted];
        exists (minted b); (split; [lia|reflexivity]).
    + case_decide.
      * cbn [minted revoked].
        apply (revoke_if_blob_known host (imagePreview s) b _ Hp' Hb').
      * rewrite revoke_if_blob_minted. cbn [minted].
        apply revoke_if_blob_known; [exact Hp'|].
        cbn [revoked].
        apply (revoke_if_blob_known host (imagePreview s) b _ Hp' Hb').
  - unfold step, handle, commit_effects, detectObjects_start. cbn [fst snd].
    destruct (detect_disabled v s).
    + cbn. case_decide; [|congruence]. split; assumption.
    + destruct v, (imageFile s), (client s); cbn;
        (case_decide; [|congruence]); split; assumption.
  - rewrite step_settled. cbn [fst snd]. rewrite settle_preview.
    split; assumption.
  - unfold step, handle, commit_effects. cbn.
    case_decide; [|congruence]. split; assumption.
  - unfold step, handle, commit_effects.
    destruct img; cbn; (case_decide; [|congruence]); split; assumption.
  - unfold step, handle, commit_effects.
    destruct r; cbn; (case_decide; [|congruence]); split; assumption.
Qed.

Lemma run_revokes_minted (host : Host) (v : Variant) (evs : list Event) :
  forall c : State * Browser,
    (forall url, imagePreview (fst c) = Some url ->
                 minted_before host (minted (snd c)) url) ->
    Forall (minted_before host (minted (snd c))) (revoked (snd c)) ->
    (forall url, imagePreview (fst (run host v evs c)) = Some url ->
                 minted_before host (minted (snd (run host v evs c))) url) /\
    Forall (minted_before host (minted (snd (run host v evs c))))
           (revoked (snd (run host v evs c))).
Proof.
  induction evs as [|ev evs IH]; intros c Hp Hb; [split; assumption|].
  cbn [run fold_left].
  destruct (step_revokes_minted host v ev c Hp Hb) as [Hp' Hb'].
  apply (IH _ Hp' Hb').
Qed.

(** X11: every URL the component revokes, while mounted and at teardown,
    is one it minted before, and so is the preview on screen. *)
Theorem only_minted_urls_revoked (host : Host) (v : Variant) (evs : list Event) :
  let c := run host v evs (initialState, initialBrowser) in
  Forall (minted_before host (minted (snd c))) (revoked (snd c)) /\
  Forall (minted_before host (minted (unmount c))) (revoked (unmount c)) /\
  (forall url, imagePreview (fst c) = Some url ->
               minted_before host (minted (snd c)) url).
Proof.
  intros c.
  destruct (run_revokes_minted host v evs (initialState, initialBrowser))
    as [Hp Hb].
  { intros url. discriminate. }
  { constructor. }
  fold c in Hp, Hb.
  split; [exact Hb|]. split; [|exact Hp].
  unfold unmount. rewrite revoke_if_blob_minted.
  apply (revoke_if_blob_known host _ _ _ Hp Hb).
Qed.

(** *** A record without a confidence *)



(** *** What is sent *)

Lemma step_sends_selected (host : Host) (v : Variant) (ev : Event)
    (c : State * Browser) (acc : list File) :
  (forall f, imageFile (fst c) = Some f -> In f acc) ->
  Forall (fun f => In f acc) (requests (snd c)) ->
  (forall f, imageFile (fst (step host v ev c)) = Some f ->
             In f (selected_files [ev] acc)) /\
  Forall (fun f => In f (selected_files [ev] acc))
         (requests (snd (step host v ev c))).
Proof.
  destruct c as [s b]. cbn [fst snd]. intros Hf Hr.
  destruct ev as [[|f rest]| |o|n d|img|r]; cbn [selected_files].
  - rewrite step_no_file. split; assumption.
  - destruct (step_file_selected host v s b f rest) as [Hs Hb].
    rewrite Hs, Hb. cbn [imageFile]. split.
    + intros f' [= <-]. left. reflexivity.
    + eapply Forall_impl; [exact Hr|]. intros f' Hin. right. exact Hin.
  - unfold step, handle, commit_effects, detectObjects_start. cbn [fst snd].
    destruct (detect_disabled v s).
    + cbn. case_decide; [|congruence]. split; assumption.
    + destruct v, (imageFile s) as [f|] eqn:Hi, (client s); cbn;
        (case_decide; [|congruence]);
        (split; [intros f0 H0; cbn in H0; apply Hf; congruence|]);
        try exact Hr;
        (constructor; [apply Hf; reflexivity|exact Hr]).
  - rewrite step_settled. cbn [fst snd]. split; [|exact Hr].
    unfold detectObjects_settle.
    destruct (detectObjects_try host o); exact Hf.
  - unfold step, handle, commit_effects. cbn.
    case_decide; [|congruence]. split; assumption.
  - unfold step, handle, commit_effects.
    destruct img; cbn; (case_decide; [|congruence]); split; assumption.
  - unfold step, handle, commit_effects.
    destruct r; cbn; (case_decide; [|congruence]); split; assumption.
Qed.

Lemma selected_files_cons (ev : Event) (evs : list Event) (acc : list File) :
  selected_files (ev :: evs) acc = selected_files evs (selected_files [ev] acc).
Proof. destruct ev as [[|f rest]| | | | |]; reflexivity. Qed.

Lemma run_sends_selected (host : Host) (v : Variant) (evs : list Event) :
  forall (c : State * Browser) (acc : list File),
    (forall f, imageFile (fst c) = Some f -> In f acc) ->
    Forall (fun f => In f acc) (requests (snd c)) ->
    Forall (fun f => In f (selected_files evs acc))
           (requests (snd (run host v evs c))).
Proof.
  induction evs as [|ev evs IH]; intros c acc Hf Hr; [exact Hr|].
  cbn [run fold_left]. rewrite selected_files_cons.
  destruct (step_sends_selected host v ev c acc Hf Hr) as [Hf' Hr'].
  apply (IH _ _ Hf' Hr').
Qed.

(** X13: every request carries a file the user selected earlier in the
    trace (the first file of some selection). *)
Theorem only_selected_files_sent (host : Host) (v : Variant) (evs : list Event) :
  Forall (fun f => In f (selected_files evs []))
         (requests (snd (run host v evs (initialState, initialBrowser)))).
Proof.
  apply run_sends_selected.
  - intros f. discriminate.
  - constructor.
Qed.
